(** * DataFrameInteraction: construction and teardown of the interaction
      training buffers

    A shallow embedding of [shared/ebm_native/DataFrameInteraction.cpp]:
    [ConstructGradients], [ConstructInputData],
    [DataFrameInteraction::Destruct] and [DataFrameInteraction::Initialize].

    The C++ works on a heap through [EbmMalloc] and [free]; the embedding
    threads an explicit heap through a small state monad.  Behaviour that
    C++ leaves undefined (a read past the end of a caller-supplied array, a
    read of a slot that was never written, [free] of a block that is not
    live) and a violated [EBM_ASSERT] are a separate outcome, [Undefined],
    so that "returns an error" and "has no defined behaviour" are never
    confused.

    The file has three parts: the embedding and the predicates the
    statements use; the proofs, which hold for every instance of the
    interface [EbmInternal]; and runs on a reference build. *)

From stdpp Require Import base option list gmap.
From Stdlib Require Import ZArith Lia.

Local Open Scope Z_scope.
#[local] Set Warnings "-clear-no-such-hyp".

(** ** What the headers provide

    [EbmInternal.h], [ebm_native.h] and the translation unit holding
    [InitializeGradients] are not part of this file's source.  Everything
    the four functions take from them is gathered in one interface; every
    theorem below holds for each of its instances. *)

Class EbmInternal := {
  (** [FloatEbmType], the element type of the gradient buffer. *)
  FloatEbmType : Type;
  (** [std::numeric_limits<size_t>::max()]. *)
  SIZE_MAX : Z;
  (** [std::numeric_limits<StorageDataType>::max()]; [StorageDataType] is
      an unsigned integer type. *)
  STORAGE_MAX : Z;
  (** [IsClassification(runtimeLearningTypeOrCountTargetClasses)]. *)
  IsClassification : Z -> bool;
  (** [GetVectorLength(runtimeLearningTypeOrCountTargetClasses)]. *)
  GetVectorLength : Z -> Z;
  (** Whether the allocator grants the request: the first argument counts
      the calls of [EbmMalloc] made before this one, the second is the
      number of items asked for.  It stands for both causes of a
      [nullptr]: the size computation inside [EbmMalloc] overflowing and
      [malloc] itself running out of memory. *)
  malloc_succeeds : nat -> Z -> bool;
  (** The external [InitializeGradients]: from the descriptor, the sample
      count, the target buffer, the predictor scores and the cells of the
      buffer it is handed, the error flag it returns ([true] is failure)
      and the cells it leaves behind. *)
  InitializeGradients :
    Z -> Z -> list Z -> list FloatEbmType -> list (option FloatEbmType) ->
    bool * list (option FloatEbmType)
}.

(** ** Error kinds

    Each [return nullptr] / [return true] of the source is preceded by its
    own log line; the constructor names are the spec's names for them. *)

Inductive ErrorKind :=
| SizeOverflow        (* ConstructGradients, IsMultiplyError *)
| AllocationFailure   (* nullptr from EbmMalloc, all three sites *)
| GradientInitFailed  (* InitializeGradients returned true *)
| NegativeLabel       (* Initialize, data < 0 *)
| LabelOverflow       (* Initialize, !IsNumberConvertable<...>(data) *)
| LabelOutOfRange     (* Initialize, countTargetClasses <= iData *)
| NegativeBinIndex    (* ConstructInputData, inputData < 0 *)
| BinIndexOverflow    (* ConstructInputData, !IsNumberConvertable<...> *)
| BinIndexOutOfRange. (* ConstructInputData, GetCountBins() <= iData *)

Inductive Fault :=
| AssertionFailed   (* an EBM_ASSERT does not hold *)
| ReadOutOfBounds   (* a read past the end of an array *)
| ReadUninitialized (* a read of a cell that was never written *)
| WriteOutOfBounds  (* a write past the end of a block *)
| InvalidPointer.   (* free or access through a pointer to no live block *)

(** [FeatureAtomic], as far as this file uses it: [GetCountBins()] and
    [GetIndexFeatureAtomicData()], both [size_t]. *)
Record FeatureAtomic := {
  m_cBins : Z;
  m_iFeatureAtomicData : Z
}.

Definition GetCountBins (f : FeatureAtomic) : Z := m_cBins f.
Definition GetIndexFeatureAtomicData (f : FeatureAtomic) : Z :=
  m_iFeatureAtomicData f.

(** Addresses of heap blocks; a pointer is an address or [nullptr]. *)
Definition addr := positive.
Definition ptr := option addr.
Definition nullptr : ptr := None.

(** The fields of [DataFrameInteraction]. *)
Record DataFrameInteraction := {
  m_aGradients : ptr;
  m_aaInputData : ptr;
  m_cSamples : Z;
  m_cFeatureAtomics : Z
}.

(** The zeroed object [Initialize] expects to start from. *)
Definition zeroed : DataFrameInteraction :=
  {| m_aGradients := nullptr; m_aaInputData := nullptr;
     m_cSamples := 0; m_cFeatureAtomics := 0 |}.

(** ** The heap *)

Section Heap.
Context `{E : EbmInternal}.

(** A block is an array of cells; a cell that was never written is
    [None]. *)
Inductive block :=
| GradientBlock (cells : list (option FloatEbmType)) (* FloatEbmType[] *)
| PointerBlock (cells : list (option addr))          (* StorageDataType*[] *)
| StorageBlock (cells : list (option Z)).            (* StorageDataType[] *)

Record heap := {
  live : gmap addr block;  (* the blocks allocated and not yet freed *)
  calls : nat              (* calls of EbmMalloc made so far *)
}.

Inductive outcome (A : Type) :=
| Undefined (why : Fault)
| Returns (a : A) (h : heap).
#[global] Arguments Undefined {A} why.
#[global] Arguments Returns {A} a h.

Definition M (A : Type) : Type := heap -> outcome A.

Definition ret {A} (a : A) : M A := fun h => Returns a h.
Definition bind {A B} (m : M A) (k : A -> M B) : M B :=
  fun h => match m h with
           | Undefined why => Undefined why
           | Returns a h' => k a h'
           end.
Definition undefined {A} (why : Fault) : M A := fun _ => Undefined why.

End Heap.

Notation "'let*' x := m 'in' k" := (bind m (fun x => k))
  (at level 10, x name, m at level 100, k at level 200,
   format "'[v' 'let*'  x  :=  m  'in' '/' k ']'").
Notation "m >> k" := (bind m (fun _ => k))
  (at level 90, k at level 200, right associativity).

Section Embedding.
Context `{E : EbmInternal}.

(** [EBM_ASSERT(b)]. *)
Definition EBM_ASSERT (b : bool) : M unit :=
  if b then ret tt else undefined AssertionFailed.

(** [EbmMalloc<T>(cItems)]: [nullptr], or the address of a new block of
    [cItems] cells, none of them written. [mk] chooses the cell type. *)
Definition EbmMalloc {C} (mk : list (option C) -> block) (cItems : Z) : M ptr :=
  fun h =>
    if malloc_succeeds (calls h) cItems then
      let a := fresh (dom (live h)) in
      Returns (Some a)
        {| live := <[a := mk (replicate (Z.to_nat cItems) None)]> (live h);
           calls := S (calls h) |}
    else
      Returns nullptr {| live := live h; calls := S (calls h) |}.

(** [free(p)]: nothing for [nullptr]; the block must be live. *)
Definition free (p : ptr) : M unit :=
  fun h =>
    match p with
    | None => Returns tt h
    | Some a =>
        match live h !! a with
        | Some _ => Returns tt {| live := delete a (live h); calls := calls h |}
        | None => Undefined InvalidPointer
        end
    end.

(** [a[i] = v] on a block of storage cells. *)
Definition store_storage (a : addr) (i : nat) (v : Z) : M unit :=
  fun h =>
    match live h !! a with
    | Some (StorageBlock cells) =>
        if decide (i < length cells)%nat then
          Returns tt {| live := <[a := StorageBlock (<[i := Some v]> cells)]> (live h);
                        calls := calls h |}
        else Undefined WriteOutOfBounds
    | _ => Undefined InvalidPointer
    end.

(** [a[i] = p] on a block of pointer cells. *)
Definition store_pointer (a : addr) (i : nat) (p : addr) : M unit :=
  fun h =>
    match live h !! a with
    | Some (PointerBlock cells) =>
        if decide (i < length cells)%nat then
          Returns tt {| live := <[a := PointerBlock (<[i := Some p]> cells)]> (live h);
                        calls := calls h |}
        else Undefined WriteOutOfBounds
    | _ => Undefined InvalidPointer
    end.

(** [a[i]] on a block of pointer cells. *)
Definition load_pointer (a : addr) (i : nat) : M addr :=
  fun h =>
    match live h !! a with
    | Some (PointerBlock cells) =>
        match cells !! i with
        | Some (Some p) => Returns p h
        | Some None => Undefined ReadUninitialized
        | None => Undefined ReadOutOfBounds
        end
    | _ => Undefined InvalidPointer
    end.

(** Read and replace the cells of a gradient block (what handing the
    pointer to [InitializeGradients] lets it do). *)
Definition gradient_cells (a : addr) : M (list (option FloatEbmType)) :=
  fun h =>
    match live h !! a with
    | Some (GradientBlock cells) => Returns cells h
    | _ => Undefined InvalidPointer
    end.

Definition set_gradient_cells (a : addr) (cells : list (option FloatEbmType)) : M unit :=
  fun h =>
    match live h !! a with
    | Some (GradientBlock _) =>
        Returns tt {| live := <[a := GradientBlock cells]> (live h); calls := calls h |}
    | _ => Undefined InvalidPointer
    end.

(** [p[i]] on a caller-supplied array. *)
Definition read_array {A} (a : list A) (i : nat) : M A :=
  match a !! i with
  | Some v => ret v
  | None => undefined ReadOutOfBounds
  end.

(** ** Integer helpers of [EbmInternal.h] *)

(** Conversion to [size_t] and to [StorageDataType]: reduction modulo the
    number of values of the type. *)
Definition to_size_t (z : Z) : Z := z mod (SIZE_MAX + 1).
Definition to_storage (z : Z) : Z := z mod (STORAGE_MAX + 1).

(** Modelled from the spec: [IsMultiplyError], whose definition is in
    [EbmInternal.h]; it tells whether the product of two [size_t] values
    overflows [size_t]. *)
Definition IsMultiplyError (a b : Z) : bool := SIZE_MAX <? a * b.

(** Modelled from the spec: [IsNumberConvertable<T>], whose definition is
    in [EbmInternal.h]; it tells whether the value fits in the unsigned
    integer type [T], given here by its largest value. *)
Definition IsNumberConvertable (T_max : Z) (v : Z) : bool :=
  (0 <=? v) && (v <=? T_max).

(** ** ConstructGradients (lines 24-67)

    [aTargetData] and [aPredictorScores] are arrays, never [nullptr], so
    the two assertions on them need no counterpart. *)
Definition ConstructGradients
    (cSamples : Z) (aTargetData : list Z)
    (aPredictorScores : list FloatEbmType)
    (runtimeLearningTypeOrCountTargetClasses : Z) : M (ErrorKind + addr) :=
  EBM_ASSERT (1 <=? cSamples) >>
  EBM_ASSERT (negb (runtimeLearningTypeOrCountTargetClasses =? 0)) >>
  let cVectorLength := GetVectorLength runtimeLearningTypeOrCountTargetClasses in
  EBM_ASSERT (1 <=? cVectorLength) >>
  if IsMultiplyError cSamples cVectorLength then ret (inl SizeOverflow)
  else
    let cElements := to_size_t (cSamples * cVectorLength) in
    let* aGradients := EbmMalloc GradientBlock cElements in
    match aGradients with
    | None => ret (inl AllocationFailure)
    | Some a =>
        let* before := gradient_cells a in
        let r := InitializeGradients runtimeLearningTypeOrCountTargetClasses
                   cSamples aTargetData aPredictorScores before in
        set_gradient_cells a (snd r) >>
        if fst r then free (Some a) >> ret (inl GradientInitFailed)
        else ret (inr a)
    end.

(** ** ConstructInputData (lines 69-139) *)

(** The inner do-while (lines 102-124) for one feature.  [from] is the
    position [pInputDataFrom] starts at, [i] the number of increments made
    so far, [todo] the number of elements left after this one, so that
    [pInputDataFromEnd != pInputDataFrom] is [todo <> 0].  The result is
    the error that jumped to [free_all], if any. *)
Fixpoint ConstructInputData_samples
    (todo : nat) (pFeatureAtomic : FeatureAtomic) (aBinnedData : list Z)
    (from : nat) (pInputDataTo : addr) (i : nat) : M (option ErrorKind) :=
  let* inputData := read_array aBinnedData (from + i) in
  if inputData <? 0 then ret (Some NegativeBinIndex)
  else if negb (IsNumberConvertable STORAGE_MAX inputData) then ret (Some BinIndexOverflow)
  else if negb (IsNumberConvertable SIZE_MAX inputData) then ret (Some BinIndexOverflow)
  else
    let iData := to_size_t inputData in
    if GetCountBins pFeatureAtomic <=? iData then ret (Some BinIndexOutOfRange)
    else
      store_storage pInputDataTo i (to_storage inputData) >>
      match todo with
      | O => ret None
      | S todo' =>
          ConstructInputData_samples todo' pFeatureAtomic aBinnedData from
            pInputDataTo (S i)
      end.

(** The outer do-while (lines 91-127).  [iFeature] is the position of
    [pFeatureAtomic] in [aFeatureAtomics]; [paInputDataTo] is at the same
    position in the outer block when the body starts.  The result is
    [None] when the loop ran to its end, and otherwise the error together
    with the position of [paInputDataTo] at the jump to [free_all]. *)
Fixpoint ConstructInputData_features
    (todo : nat) (aFeatureAtomics : list FeatureAtomic) (cSamples : Z)
    (aBinnedData : list Z) (aaInputDataTo : addr) (iFeature : nat)
    : M (option (ErrorKind * nat)) :=
  let* pInputDataTo := EbmMalloc StorageBlock cSamples in
  match pInputDataTo with
  | None => ret (Some (AllocationFailure, iFeature))
  | Some p =>
      store_pointer aaInputDataTo iFeature p >>
      let* pFeatureAtomic := read_array aFeatureAtomics iFeature in
      let from :=
        Z.to_nat (to_size_t (GetIndexFeatureAtomicData pFeatureAtomic * cSamples)) in
      let* failed :=
        ConstructInputData_samples (pred (Z.to_nat cSamples)) pFeatureAtomic
          aBinnedData from p 0 in
      match failed with
      | Some e => ret (Some (e, S iFeature))
      | None =>
          match todo with
          | O => ret None
          | S todo' =>
              ConstructInputData_features todo' aFeatureAtomics cSamples
                aBinnedData aaInputDataTo (S iFeature)
          end
      end
  end.

(** The code at [free_all] (lines 132-138), entered with [paInputDataTo]
    at position [k] of the outer block. *)
Fixpoint ConstructInputData_free_all (k : nat) (aaInputDataTo : addr) : M unit :=
  match k with
  | O => free (Some aaInputDataTo)
  | S k' =>
      let* p := load_pointer aaInputDataTo k' in
      free (Some p) >>
      ConstructInputData_free_all k' aaInputDataTo
  end.

Definition ConstructInputData
    (cFeatures : Z) (aFeatureAtomics : list FeatureAtomic) (cSamples : Z)
    (aBinnedData : list Z) : M (ErrorKind + addr) :=
  EBM_ASSERT (0 <? cFeatures) >>
  EBM_ASSERT (0 <? cSamples) >>
  let* aaInputDataTo := EbmMalloc PointerBlock cFeatures in
  match aaInputDataTo with
  | None => ret (inl AllocationFailure)
  | Some a =>
      let* failed :=
        ConstructInputData_features (pred (Z.to_nat cFeatures)) aFeatureAtomics
          cSamples aBinnedData a 0 in
      match failed with
      | None => ret (inr a)
      | Some (e, k) => ConstructInputData_free_all k a >> ret (inl e)
      end
  end.

(** ** DataFrameInteraction::Destruct (lines 143-160) *)

(** The do-while of lines 151-155; a cell that was written holds the
    address of a block, which is what the assertion in the body asks. *)
Fixpoint Destruct_columns (todo : nat) (aaInputData : addr) (i : nat) : M unit :=
  let* p := load_pointer aaInputData i in
  free (Some p) >>
  match todo with
  | O => ret tt
  | S todo' => Destruct_columns todo' aaInputData (S i)
  end.

Definition Destruct (this : DataFrameInteraction) : M unit :=
  free (m_aGradients this) >>
  match m_aaInputData this with
  | None => ret tt
  | Some a =>
      EBM_ASSERT (1 <=? m_cFeatureAtomics this) >>
      Destruct_columns (pred (Z.to_nat (m_cFeatureAtomics this))) a 0 >>
      free (Some a)
  end.

(** ** DataFrameInteraction::Initialize (lines 163-236) *)

Definition set_aGradients (p : ptr) (this : DataFrameInteraction) :=
  {| m_aGradients := p; m_aaInputData := m_aaInputData this;
     m_cSamples := m_cSamples this; m_cFeatureAtomics := m_cFeatureAtomics this |}.
Definition set_aaInputData (p : ptr) (this : DataFrameInteraction) :=
  {| m_aGradients := m_aGradients this; m_aaInputData := p;
     m_cSamples := m_cSamples this; m_cFeatureAtomics := m_cFeatureAtomics this |}.
Definition set_cSamples (c : Z) (this : DataFrameInteraction) :=
  {| m_aGradients := m_aGradients this; m_aaInputData := m_aaInputData this;
     m_cSamples := c; m_cFeatureAtomics := m_cFeatureAtomics this |}.
Definition set_cFeatureAtomics (c : Z) (this : DataFrameInteraction) :=
  {| m_aGradients := m_aGradients this; m_aaInputData := m_aaInputData this;
     m_cSamples := m_cSamples this; m_cFeatureAtomics := c |}.

(** The do-while over the targets (lines 190-210); the result is the error
    that made [Initialize] return [true], if any. *)
Fixpoint Initialize_targets
    (todo : nat) (aTargetData : list Z) (countTargetClasses : Z) (i : nat)
    : M (option ErrorKind) :=
  let* data := read_array aTargetData i in
  if data <? 0 then ret (Some NegativeLabel)
  else if negb (IsNumberConvertable STORAGE_MAX data) then ret (Some LabelOverflow)
  else if negb (IsNumberConvertable SIZE_MAX data) then ret (Some LabelOverflow)
  else
    let iData := to_size_t data in
    if countTargetClasses <=? iData then ret (Some LabelOutOfRange)
    else
      match todo with
      | O => ret None
      | S todo' => Initialize_targets todo' aTargetData countTargetClasses (S i)
      end.

(** The result pairs what [Initialize] returns with the object it leaves:
    [Some e] is [return true] after the error [e], [None] is
    [return false].  [aTargetData] is a [const void *]; this file reads it
    only as an array of [IntEbmType] (line 187), and so it is one here. *)
Definition Initialize
    (this : DataFrameInteraction)
    (cFeatureAtomics : Z) (aFeatureAtomics : list FeatureAtomic)
    (cSamples : Z) (aBinnedData : list Z) (aTargetData : list Z)
    (aPredictorScores : list FloatEbmType)
    (runtimeLearningTypeOrCountTargetClasses : Z)
    : M (option ErrorKind * DataFrameInteraction) :=
  EBM_ASSERT (bool_decide (m_aGradients this = nullptr)) >>
  EBM_ASSERT (bool_decide (m_aaInputData this = nullptr)) >>
  EBM_ASSERT (m_cSamples this =? 0) >>
  if negb (cSamples =? 0) then
    EBM_ASSERT (negb (runtimeLearningTypeOrCountTargetClasses =? 0)) >>
    let* bad :=
      if IsClassification runtimeLearningTypeOrCountTargetClasses then
        let countTargetClasses := to_size_t runtimeLearningTypeOrCountTargetClasses in
        Initialize_targets (pred (Z.to_nat cSamples)) aTargetData countTargetClasses 0
      else ret None in
    match bad with
    | Some e => ret (Some e, this)
    | None =>
        let* g := ConstructGradients cSamples aTargetData aPredictorScores
                    runtimeLearningTypeOrCountTargetClasses in
        match g with
        | inl e => ret (Some e, this)
        | inr aGradients =>
            let* committed :=
              if negb (cFeatureAtomics =? 0) then
                let* c := ConstructInputData cFeatureAtomics aFeatureAtomics
                            cSamples aBinnedData in
                match c with
                | inl e => free (Some aGradients) >> ret (inl e)
                | inr aaInputData => ret (inr (set_aaInputData (Some aaInputData) this))
                end
              else ret (inr this) in
            match committed with
            | inl e => ret (Some e, this)
            | inr this1 =>
                let this2 := set_aGradients (Some aGradients) this1 in
                let this3 := set_cSamples cSamples this2 in
                ret (None, set_cFeatureAtomics cFeatureAtomics this3)
            end
        end
    end
  else ret (None, set_cFeatureAtomics cFeatureAtomics this).

(** What the caller sees: [true] for failure. *)
Definition returns_true (r : option ErrorKind) : bool := bool_decide (is_Some r).

(** ** The checks, in the spec's words

    Section 4.3: a raw bin value fails with [NegativeBinIndex] if negative,
    with [BinIndexOverflow] if not representable in the storage type or
    not representable as an index, with [BinIndexOutOfRange] if it is not
    below the feature's bin count; otherwise it is stored.  Section 4.1 has
    the same four conditions for a label and the class count. *)

Definition bin_error (f : FeatureAtomic) (v : Z) : option ErrorKind :=
  if decide (v < 0) then Some NegativeBinIndex
  else if decide (STORAGE_MAX < v \/ SIZE_MAX < v) then Some BinIndexOverflow
  else if decide (m_cBins f <= v) then Some BinIndexOutOfRange
  else None.

Definition valid_bin (f : FeatureAtomic) (v : Z) : Prop :=
  0 <= v /\ v <= STORAGE_MAX /\ v <= SIZE_MAX /\ v < m_cBins f.

Definition label_error (K : Z) (v : Z) : option ErrorKind :=
  if decide (v < 0) then Some NegativeLabel
  else if decide (STORAGE_MAX < v \/ SIZE_MAX < v) then Some LabelOverflow
  else if decide (K <= v) then Some LabelOutOfRange
  else None.

Definition valid_label (K : Z) (v : Z) : Prop :=
  0 <= v /\ v <= STORAGE_MAX /\ v <= SIZE_MAX /\ v < K.

(** The cell of [aBinnedData] that the code reads for sample [i] of the
    feature [f]: [aBinnedData[f.GetIndexFeatureAtomicData() * cSamples + i]],
    the product taken in [size_t]. *)
Definition column_start (f : FeatureAtomic) (cSamples : Z) : nat :=
  Z.to_nat (to_size_t (GetIndexFeatureAtomicData f * cSamples)).

Definition raw_bin (aBinnedData : list Z) (f : FeatureAtomic) (cSamples : Z)
    (i : nat) : option Z :=
  aBinnedData !! (column_start f cSamples + i)%nat.


(** The three outcomes of a value check that does not pass, and the one
    that does, as the code tests them. *)
Inductive check_case (bound v : Z) : Prop :=
| check_negative :
    (v <? 0) = true -> v < 0 -> check_case bound v
| check_storage :
    (v <? 0) = false -> IsNumberConvertable STORAGE_MAX v = false ->
    0 <= v -> STORAGE_MAX < v -> check_case bound v
| check_index :
    (v <? 0) = false -> IsNumberConvertable STORAGE_MAX v = true ->
    IsNumberConvertable SIZE_MAX v = false ->
    0 <= v -> v <= STORAGE_MAX -> SIZE_MAX < v -> check_case bound v
| check_range :
    (v <? 0) = false -> IsNumberConvertable STORAGE_MAX v = true ->
    IsNumberConvertable SIZE_MAX v = true -> (bound <=? to_size_t v) = true ->
    0 <= v -> v <= STORAGE_MAX -> v <= SIZE_MAX -> bound <= v ->
    check_case bound v
| check_passed :
    (v <? 0) = false -> IsNumberConvertable STORAGE_MAX v = true ->
    IsNumberConvertable SIZE_MAX v = true -> (bound <=? to_size_t v) = false ->
    0 <= v -> v <= STORAGE_MAX -> v <= SIZE_MAX -> v < bound ->
    check_case bound v.

(** Blocks owned by a construction in progress.
    [under_construction h0 outer N ps h]: since the heap [h0],
    [ConstructInputData] has allocated the outer block [outer] of [N]
    pointer cells and the inner blocks [ps], whose addresses it wrote to
    the first cells of [outer]; nothing else changed. *)
Record under_construction (h0 : heap) (outer : addr) (N : nat)
    (ps : list addr) (h : heap) : Prop := {
  uc_nodup : NoDup (outer :: ps);
  uc_fresh : forall a, a ∈ outer :: ps -> live h0 !! a = None;
  uc_frame : forall a, a ∉ outer :: ps -> live h !! a = live h0 !! a;
  uc_outer : exists slots,
      live h !! outer = Some (PointerBlock slots) /\ length slots = N /\
      forall j p, ps !! j = Some p -> slots !! j = Some (Some p);
  uc_inner : forall p, p ∈ ps -> is_Some (live h !! p)
}.

(** The inner blocks [ps] hold the validated columns of the first
    features. *)
Definition columns_filled (aFeatureAtomics : list FeatureAtomic)
    (cSamples : Z) (aBinnedData : list Z) (ps : list addr) (h : heap) : Prop :=
  forall j p, ps !! j = Some p ->
  exists f cells,
    aFeatureAtomics !! j = Some f /\
    live h !! p = Some (StorageBlock cells) /\
    length cells = Z.to_nat cSamples /\
    forall i, (i < Z.to_nat cSamples)%nat ->
    exists v, raw_bin aBinnedData f cSamples i = Some v /\ valid_bin f v /\
              cells !! i = Some (Some v).

(** Why [ConstructInputData] gave up with the error [e]: the allocator
    refused a request, or some cell of some feature's column does not pass
    the checks. *)
Definition gave_up (aFeatureAtomics : list FeatureAtomic) (cFeatures : nat)
    (cSamples : Z) (aBinnedData : list Z) (e : ErrorKind) : Prop :=
  (e = AllocationFailure /\ exists n c, malloc_succeeds n c = false) \/
  (exists j f i v,
     (j < cFeatures)%nat /\ aFeatureAtomics !! j = Some f /\
     (i < Z.to_nat cSamples)%nat /\
     raw_bin aBinnedData f cSamples i = Some v /\ bin_error f v = Some e).

(** The layout [ConstructInputData] hands back on success: [outer] is a
    block of [cFeatures] pointer cells, cell [j] holds the address of a
    block of [cSamples] storage cells, and cell [i] of that block holds
    the raw value the code read for sample [i] of feature [j], which
    passed the checks. *)
Definition binned_columns (cFeatures : Z) (aFeatureAtomics : list FeatureAtomic)
    (cSamples : Z) (aBinnedData : list Z) (outer : addr) (h : heap) : Prop :=
  exists slots,
    live h !! outer = Some (PointerBlock slots) /\
    length slots = Z.to_nat cFeatures /\
    forall j, (j < Z.to_nat cFeatures)%nat ->
    exists p f cells,
      slots !! j = Some (Some p) /\ aFeatureAtomics !! j = Some f /\
      live h !! p = Some (StorageBlock cells) /\
      length cells = Z.to_nat cSamples /\
      forall i, (i < Z.to_nat cSamples)%nat ->
      exists v, raw_bin aBinnedData f cSamples i = Some v /\ valid_bin f v /\
                cells !! i = Some (Some v).

(** Every column the code is going to read lies inside the arrays. *)
Definition columns_in_bounds (cFeatures : nat)
    (aFeatureAtomics : list FeatureAtomic) (cSamples : Z)
    (aBinnedData : list Z) : Prop :=
  forall j, (j < cFeatures)%nat ->
  exists f, aFeatureAtomics !! j = Some f /\
            forall i, (i < Z.to_nat cSamples)%nat ->
                      is_Some (raw_bin aBinnedData f cSamples i).

(** The object as the three assertions at the head of [Initialize] want
    it. *)
Definition initial (this : DataFrameInteraction) : Prop :=
  m_aGradients this = nullptr /\ m_aaInputData this = nullptr /\
  m_cSamples this = 0.

(** The validation of lines 186-211 as one computation. *)
Definition validate_targets (cSamples : Z) (aTargetData : list Z) (d : Z)
    : M (option ErrorKind) :=
  if IsClassification d then
    Initialize_targets (Init.Nat.pred (Z.to_nat cSamples)) aTargetData
      (to_size_t d) 0
  else ret None.

(** The listed targets all pass the checks: nothing to say for
    regression. *)
Definition targets_pass (cSamples : Z) (aTargetData : list Z) (d : Z) : Prop :=
  IsClassification d = true ->
  forall i, (i < Z.to_nat cSamples)%nat ->
  exists v, aTargetData !! i = Some v /\ valid_label (to_size_t d) v.

(** The ways out of [Initialize]: the empty frame, a target that does not
    pass (lines 194-207), [exit_error] after [ConstructGradients], 
    [exit_error] after [ConstructInputData], and the two commits, with
    and without features. *)
Inductive Initialize_exit
    (this : DataFrameInteraction) (cFeatureAtomics : Z)
    (aFeatureAtomics : list FeatureAtomic) (cSamples : Z)
    (aBinnedData aTargetData : list Z) (aPredictorScores : list FloatEbmType)
    (d : Z) (h : heap)
    : option ErrorKind -> DataFrameInteraction -> heap -> Prop :=
| exit_empty :
    cSamples = 0 ->
    Initialize_exit this cFeatureAtomics aFeatureAtomics cSamples aBinnedData
      aTargetData aPredictorScores d h
      None (set_cFeatureAtomics cFeatureAtomics this) h
| exit_target e :
    cSamples <> 0 -> d <> 0 ->
    validate_targets cSamples aTargetData d h = Returns (Some e) h ->
    Initialize_exit this cFeatureAtomics aFeatureAtomics cSamples aBinnedData
      aTargetData aPredictorScores d h (Some e) this h
| exit_gradients e h1 :
    cSamples <> 0 -> d <> 0 ->
    validate_targets cSamples aTargetData d h = Returns None h ->
    ConstructGradients cSamples aTargetData aPredictorScores d h =
      Returns (inl e) h1 ->
    Initialize_exit this cFeatureAtomics aFeatureAtomics cSamples aBinnedData
      aTargetData aPredictorScores d h (Some e) this h1
| exit_input e aGradients h1 h2 h3 :
    cSamples <> 0 -> d <> 0 -> cFeatureAtomics <> 0 ->
    validate_targets cSamples aTargetData d h = Returns None h ->
    ConstructGradients cSamples aTargetData aPredictorScores d h =
      Returns (inr aGradients) h1 ->
    ConstructInputData cFeatureAtomics aFeatureAtomics cSamples aBinnedData h1 =
      Returns (inl e) h2 ->
    free (Some aGradients) h2 = Returns tt h3 ->
    Initialize_exit this cFeatureAtomics aFeatureAtomics cSamples aBinnedData
      aTargetData aPredictorScores d h (Some e) this h3
| exit_commit aGradients aaInputData h1 h2 :
    cSamples <> 0 -> d <> 0 -> cFeatureAtomics <> 0 ->
    validate_targets cSamples aTargetData d h = Returns None h ->
    ConstructGradients cSamples aTargetData aPredictorScores d h =
      Returns (inr aGradients) h1 ->
    ConstructInputData cFeatureAtomics aFeatureAtomics cSamples aBinnedData h1 =
      Returns (inr aaInputData) h2 ->
    Initialize_exit this cFeatureAtomics aFeatureAtomics cSamples aBinnedData
      aTargetData aPredictorScores d h None
      {| m_aGradients := Some aGradients; m_aaInputData := Some aaInputData;
         m_cSamples := cSamples; m_cFeatureAtomics := cFeatureAtomics |} h2
| exit_commit_featureless aGradients h1 :
    cSamples <> 0 -> d <> 0 -> cFeatureAtomics = 0 ->
    validate_targets cSamples aTargetData d h = Returns None h ->
    ConstructGradients cSamples aTargetData aPredictorScores d h =
      Returns (inr aGradients) h1 ->
    Initialize_exit this cFeatureAtomics aFeatureAtomics cSamples aBinnedData
      aTargetData aPredictorScores d h None
      {| m_aGradients := Some aGradients; m_aaInputData := m_aaInputData this;
         m_cSamples := cSamples; m_cFeatureAtomics := cFeatureAtomics |} h1.

(** ** Predicates on whole columns *)

(** Every sample of the feature's column is in the array and passes its
    checks. *)
Definition column_valid (aBinnedData : list Z) (cSamples : Z)
    (f : FeatureAtomic) : Prop :=
  forall i, (i < Z.to_nat cSamples)%nat ->
  exists v, raw_bin aBinnedData f cSamples i = Some v /\ valid_bin f v.

Definition columns_valid (cFeatures : nat) (aFeatureAtomics : list FeatureAtomic)
    (cSamples : Z) (aBinnedData : list Z) : Prop :=
  forall j, (j < cFeatures)%nat ->
  exists f, aFeatureAtomics !! j = Some f /\ column_valid aBinnedData cSamples f.

(** Sample [i] is the first of the feature's column that does not pass its
    checks, and [e] is the error of that check. *)
Definition first_bad (aBinnedData : list Z) (cSamples : Z) (f : FeatureAtomic)
    (i : nat) (e : ErrorKind) : Prop :=
  (i < Z.to_nat cSamples)%nat /\
  (exists v, raw_bin aBinnedData f cSamples i = Some v /\
             bin_error f v = Some e) /\
  forall i', (i' < i)%nat ->
  exists w, raw_bin aBinnedData f cSamples i' = Some w /\ valid_bin f w.

(** The object [this] owns, in the heap [h], exactly the blocks that are
    not in [h0]: a gradient block and, if [m_aaInputData] is not null, an
    outer block of [m_cFeatureAtomics] cells pointing to as many distinct
    inner blocks. *)
Definition owns (h0 : heap) (this : DataFrameInteraction) (h : heap) : Prop :=
  exists aGradients b,
    m_aGradients this = Some aGradients /\
    live h0 !! aGradients = None /\
    let h1 := {| live := <[aGradients := b]> (live h0); calls := calls h0 |} in
    match m_aaInputData this with
    | None => live h = live h1
    | Some outer =>
        1 <= m_cFeatureAtomics this /\
        exists ps,
          length ps = Z.to_nat (m_cFeatureAtomics this) /\
          under_construction h1 outer (Z.to_nat (m_cFeatureAtomics this)) ps h
    end.

End Embedding.

(** ** A reference build *)

(** Modelled from the spec: [IsClassification], whose definition is in
    [EbmInternal.h]; the descriptor's sign tells regression (negative) from
    classification with that many classes. *)
Definition reference_IsClassification (d : Z) : bool := 0 <=? d.

(** Modelled from the spec: [GetVectorLength], whose definition is in
    [EbmInternal.h]; the vector length is 1 for regression and for two
    classes, and the class count otherwise. *)
Definition reference_GetVectorLength (d : Z) : Z := if d <=? 2 then 1 else d.

(** A build where [size_t] and [StorageDataType] have 64 bits and
    gradients are integers.  The allocator and the verdict of
    [InitializeGradients] are left to the example at hand; the routine
    fills every cell it is handed. *)
Definition reference_build (grant : nat -> Z -> bool) (init_fails : bool)
    : EbmInternal :=
  {| FloatEbmType := Z;
     SIZE_MAX := 2 ^ 64 - 1;
     STORAGE_MAX := 2 ^ 64 - 1;
     IsClassification := reference_IsClassification;
     GetVectorLength := reference_GetVectorLength;
     malloc_succeeds := grant;
     InitializeGradients := fun _ _ _ _ cells =>
       (init_fails, (fun _ => Some 0) <$> cells) |}.

(** The allocator that grants everything, and the one that refuses the
    call number [n] only. *)
Definition grant_all : nat -> Z -> bool := fun _ _ => true.
Definition refuse_call (n : nat) : nat -> Z -> bool :=
  fun k _ => negb (k =? n)%nat.

Definition empty_heap `{E : EbmInternal} : heap := {| live := ∅; calls := 0 |}.

(** The two features of the spec's scenario: bin counts 2 and 3, columns 0
    and 1. *)
Definition two_features : list FeatureAtomic :=
  [ {| m_cBins := 2; m_iFeatureAtomicData := 0 |};
    {| m_cBins := 3; m_iFeatureAtomicData := 1 |} ].

(** The largest class count a 64-bit [ptrdiff_t] holds. *)
Definition PTRDIFF_MAX : Z := 2 ^ 63 - 1.

(** * Proofs *)

Section Correctness.
Context `{E : EbmInternal}.

(** ** Basic facts *)

Lemma to_size_t_id z : 0 <= z -> z <= SIZE_MAX -> to_size_t z = z.
Proof. intros ? ?. unfold to_size_t. apply Z.mod_small. lia. Qed.

Lemma to_storage_id z : 0 <= z -> z <= STORAGE_MAX -> to_storage z = z.
Proof. intros ? ?. unfold to_storage. apply Z.mod_small. lia. Qed.

Lemma bin_error_None f v : bin_error f v = None <-> valid_bin f v.
Proof.
  unfold bin_error, valid_bin.
  repeat case_decide; split; intros; try discriminate; try lia; done.
Qed.

Lemma label_error_None K v : label_error K v = None <-> valid_label K v.
Proof.
  unfold label_error, valid_label.
  repeat case_decide; split; intros; try discriminate; try lia; done.
Qed.

Lemma IsNumberConvertable_true T_max v :
  IsNumberConvertable T_max v = true <-> 0 <= v <= T_max.
Proof. unfold IsNumberConvertable. rewrite andb_true_iff. lia. Qed.

Lemma IsNumberConvertable_false T_max v :
  0 <= v -> IsNumberConvertable T_max v = false <-> T_max < v.
Proof.
  intros ?. unfold IsNumberConvertable. rewrite andb_false_iff. lia.
Qed.

(** Stepping through monadic code. *)
Lemma bind_Returns {A B} (m : M A) (k : A -> M B) h b h' :
  bind m k h = Returns b h' ->
  exists a h1, m h = Returns a h1 /\ k a h1 = Returns b h'.
Proof. unfold bind. destruct (m h) as [|a h1]; [done | eauto]. Qed.

Lemma EBM_ASSERT_Returns b h u h' :
  EBM_ASSERT b h = Returns u h' -> b = true /\ h' = h.
Proof. destruct b; simpl; [|done]. unfold ret. by intros [= <-]. Qed.

Lemma read_array_Returns {A} (a : list A) i h v h' :
  read_array a i h = Returns v h' -> a !! i = Some v /\ h' = h.
Proof.
  unfold read_array. destruct (a !! i); [|done]. unfold ret. by intros [= <- <-].
Qed.

Lemma check_cases (bound v : Z) : check_case bound v.
Proof.
  destruct (v <? 0) eqn:Hneg.
  { apply check_negative; [done | lia]. }
  assert (0 <= v) by lia.
  destruct (IsNumberConvertable STORAGE_MAX v) eqn:Hs.
  2:{ apply check_storage; try done. by apply IsNumberConvertable_false in Hs. }
  apply IsNumberConvertable_true in Hs as Hs'.
  destruct (IsNumberConvertable SIZE_MAX v) eqn:Hz.
  2:{ apply check_index; try done; try lia.
      by apply IsNumberConvertable_false in Hz. }
  apply IsNumberConvertable_true in Hz as Hz'.
  destruct (bound <=? to_size_t v) eqn:Hle;
    rewrite to_size_t_id in Hle by lia.
  - apply check_range; try done; try lia. rewrite to_size_t_id by lia. done.
  - apply check_passed; try done; try lia. rewrite to_size_t_id by lia. done.
Qed.

(** ** The inner loop of ConstructInputData *)

(** One turn of the loop, with the four tests of lines 104-120 read as the
    spec's [bin_error] and the narrowing cast as the identity. *)
Lemma ConstructInputData_samples_step todo f aBinnedData from p i h :
  ConstructInputData_samples todo f aBinnedData from p i h =
  match aBinnedData !! (from + i)%nat with
  | None => Undefined ReadOutOfBounds
  | Some v =>
      match bin_error f v with
      | Some e => Returns (Some e) h
      | None =>
          bind (store_storage p i v)
            (fun _ =>
               match todo with
               | O => ret None
               | S todo' =>
                   ConstructInputData_samples todo' f aBinnedData from p (S i)
               end) h
      end
  end.
Proof.
  assert (Hbody : forall k : M (option ErrorKind),
    bind (read_array aBinnedData (from + i))
      (fun inputData =>
         if inputData <? 0 then ret (Some NegativeBinIndex)
         else if negb (IsNumberConvertable STORAGE_MAX inputData)
         then ret (Some BinIndexOverflow)
         else if negb (IsNumberConvertable SIZE_MAX inputData)
         then ret (Some BinIndexOverflow)
         else if GetCountBins f <=? to_size_t inputData
         then ret (Some BinIndexOutOfRange)
         else bind (store_storage p i (to_storage inputData)) (fun _ => k)) h =
    match aBinnedData !! (from + i)%nat with
    | None => Undefined ReadOutOfBounds
    | Some v =>
        match bin_error f v with
        | Some e => Returns (Some e) h
        | None => bind (store_storage p i v) (fun _ => k) h
        end
    end).
  { intros k. unfold bind at 1, read_array.
    destruct (aBinnedData !! (from + i)%nat) as [v|]; [|done].
    unfold ret at 1, bin_error, GetCountBins.
    destruct (check_cases (m_cBins f) v) as
      [H1 ?|H1 H2 ? ?|H1 H2 H3 ? ? ?|H1 H2 H3 H4 ? ? ? ?|H1 H2 H3 H4 ? ? ? ?];
      rewrite ?H1, ?H2, ?H3; simpl; rewrite ?H4;
      repeat case_decide; try done; try lia.
    by rewrite to_storage_id. }
  destruct todo; simpl; apply Hbody.
Qed.

Lemma store_storage_Returns p i v h u h' :
  store_storage p i v h = Returns u h' ->
  exists cells,
    live h !! p = Some (StorageBlock cells) /\ (i < length cells)%nat /\
    live h' = <[p := StorageBlock (<[i := Some v]> cells)]> (live h) /\
    calls h' = calls h.
Proof.
  unfold store_storage. destruct (live h !! p) as [[| |cells]|]; try done.
  case_decide; [|done]. intros [= <- <-]. by exists cells.
Qed.

Lemma ConstructInputData_samples_post f aBinnedData from p todo :
  forall i h cells r h',
  live h !! p = Some (StorageBlock cells) ->
  ConstructInputData_samples todo f aBinnedData from p i h = Returns r h' ->
  exists cells',
    live h' = <[p := StorageBlock cells']> (live h) /\
    calls h' = calls h /\
    length cells' = length cells /\
    (forall j, (j < i)%nat -> cells' !! j = cells !! j) /\
    match r with
    | None =>
        forall j, (i <= j <= i + todo)%nat ->
        exists v, aBinnedData !! (from + j)%nat = Some v /\ valid_bin f v /\
                  cells' !! j = Some (Some v)
    | Some e =>
        exists j v, (i <= j <= i + todo)%nat /\
                    aBinnedData !! (from + j)%nat = Some v /\
                    bin_error f v = Some e
    end.
Proof.
  induction todo as [|todo IH]; intros i h cells r h' Hp;
    rewrite ConstructInputData_samples_step;
    destruct (aBinnedData !! (from + i)%nat) as [v|] eqn:Hv; try done;
    destruct (bin_error f v) as [e|] eqn:Hchk.
  1,3: intros [= <- <-]; exists cells; rewrite insert_id by done;
       repeat (split; [done|]); exists i, v; split; [lia | done].
  - intros Hrun. apply bind_Returns in Hrun as (u & h1 & Hst & Hrun).
    apply store_storage_Returns in Hst as (cells0 & Hp0 & Hi & Hl & Hc).
    unfold ret in Hrun. injection Hrun as <- <-.
    rewrite Hp in Hp0. injection Hp0 as <-.
    exists (<[i := Some v]> cells). split; [done|]. split; [done|].
    split; [by rewrite length_insert|].
    split; [intros j Hj; apply list_lookup_insert_ne; lia|].
    intros j Hj. assert (j = i) as -> by lia. exists v.
    split; [done|]. split; [by apply bin_error_None|].
    by apply list_lookup_insert_eq.
  - intros Hrun. apply bind_Returns in Hrun as (u & h1 & Hst & Hrun).
    apply store_storage_Returns in Hst as (cells0 & Hp0 & Hi & Hl & Hc).
    rewrite Hp in Hp0. injection Hp0 as <-.
    eapply IH in Hrun as (cells' & Hl' & Hc' & Hlen & Hlow & Hr);
      [|by rewrite Hl, lookup_insert_eq].
    exists cells'. rewrite Hl', Hl, insert_insert_eq, Hc', Hc, Hlen, length_insert.
    do 3 (split; [done|]).
    split. { intros j Hj. rewrite Hlow by lia. apply list_lookup_insert_ne; lia. }
    destruct r as [e|].
    + destruct Hr as (j & w & Hj & Hw & He). exists j, w. split; [lia | done].
    + intros j Hj. destruct (decide (j = i)) as [->|Hne].
      * exists v. split; [done|]. split; [by apply bin_error_None|].
        rewrite Hlow by lia. by apply list_lookup_insert_eq.
      * apply Hr. lia.
Qed.

Lemma ConstructInputData_samples_total f aBinnedData from p todo :
  forall i h cells,
  live h !! p = Some (StorageBlock cells) ->
  (i + todo < length cells)%nat ->
  (forall j, (i <= j <= i + todo)%nat -> is_Some (aBinnedData !! (from + j)%nat)) ->
  exists r h', ConstructInputData_samples todo f aBinnedData from p i h = Returns r h'.
Proof.
  induction todo as [|todo IH]; intros i h cells Hp Hlen Hin;
    rewrite ConstructInputData_samples_step;
    (destruct (Hin i) as [v ->]; [lia|]);
    (destruct (bin_error f v); [by eauto|]);
    unfold bind, store_storage; rewrite Hp;
    (case_decide; [|lia]).
  - unfold ret. eauto.
  - eapply IH.
    + simpl. apply lookup_insert_eq.
    + rewrite length_insert. lia.
    + intros j Hj. apply Hin. lia.
Qed.

(** ** Heap primitives *)

Lemma EbmMalloc_Returns {C} (mk : list (option C) -> block) cItems h p h' :
  EbmMalloc mk cItems h = Returns p h' ->
  calls h' = S (calls h) /\
  match p with
  | None => malloc_succeeds (calls h) cItems = false /\ live h' = live h
  | Some a =>
      malloc_succeeds (calls h) cItems = true /\ live h !! a = None /\
      live h' = <[a := mk (replicate (Z.to_nat cItems) None)]> (live h)
  end.
Proof.
  unfold EbmMalloc. destruct (malloc_succeeds (calls h) cItems);
    intros [= <- <-]; simpl; split; try done.
  split; [done|]. split; [|done].
  apply not_elem_of_dom, is_fresh.
Qed.

Lemma free_Returns p h u h' :
  free p h = Returns u h' ->
  calls h' = calls h /\
  match p with
  | None => live h' = live h
  | Some a => is_Some (live h !! a) /\ live h' = delete a (live h)
  end.
Proof.
  unfold free. destruct p as [a|]; [|by intros [= <- <-]].
  destruct (live h !! a) eqn:Ha; [|done]. intros [= <- <-]. simpl. eauto.
Qed.

Lemma store_pointer_Returns a i p h u h' :
  store_pointer a i p h = Returns u h' ->
  exists cells,
    live h !! a = Some (PointerBlock cells) /\ (i < length cells)%nat /\
    live h' = <[a := PointerBlock (<[i := Some p]> cells)]> (live h) /\
    calls h' = calls h.
Proof.
  unfold store_pointer. destruct (live h !! a) as [[|cells|]|]; try done.
  case_decide; [|done]. intros [= <- <-]. by exists cells.
Qed.

Lemma load_pointer_Returns a i h p h' :
  load_pointer a i h = Returns p h' ->
  h' = h /\
  exists cells, live h !! a = Some (PointerBlock cells) /\ cells !! i = Some (Some p).
Proof.
  unfold load_pointer. destruct (live h !! a) as [[|cells|]|]; try done.
  destruct (cells !! i) as [[q|]|] eqn:Hq; try done.
  intros [= <- <-]. eauto.
Qed.

(** ** Blocks owned by a construction in progress *)

Lemma under_construction_calls h0 outer N ps h h' :
  live h' = live h ->
  under_construction h0 outer N ps h -> under_construction h0 outer N ps h'.
Proof. intros Hl [? ? ? ? ?]. split; rewrite ?Hl; try done; by setoid_rewrite Hl. Qed.

Lemma under_construction_inner h0 outer N ps h h' p b :
  p ∈ ps -> live h' = <[p := b]> (live h) ->
  under_construction h0 outer N ps h -> under_construction h0 outer N ps h'.
Proof.
  intros Hp Hl [Hnd Hfr Hframe (slots & Ho & Hn & Hs) Hin].
  assert (outer <> p) by (apply NoDup_cons in Hnd as [? _]; set_solver).
  split; try done.
  - intros a Ha. rewrite Hl, lookup_insert_ne; [by apply Hframe | set_solver].
  - exists slots. by rewrite Hl, lookup_insert_ne.
  - intros q Hq. rewrite Hl. destruct (decide (p = q)) as [->|].
    + rewrite lookup_insert_eq. eauto.
    + rewrite lookup_insert_ne by done. by apply Hin.
Qed.

(** Taking a fresh inner block and writing its address to the next cell
    of the outer block (lines 92-98). *)
Lemma under_construction_grow h0 outer N ps h h1 h2 p b slots :
  under_construction h0 outer N ps h ->
  live h !! p = None ->
  live h1 = <[p := b]> (live h) ->
  live h1 !! outer = Some (PointerBlock slots) ->
  (length ps < length slots)%nat ->
  live h2 = <[outer := PointerBlock (<[length ps := Some p]> slots)]> (live h1) ->
  under_construction h0 outer N (ps ++ [p]) h2.
Proof.
  intros [Hnd Hfr Hframe (slots0 & Ho & Hn & Hs) Hin] Hp H1 Ho1 Hlt H2.
  assert (outer <> p) as Hne by (intros ->; congruence).
  assert (p ∉ ps) as Hnin.
  { intros Hel. apply Hin in Hel as [? ?]. congruence. }
  rewrite H1, lookup_insert_ne in Ho1 by done.
  rewrite Ho in Ho1. injection Ho1 as <-.
  apply NoDup_cons in Hnd as [Hout Hnd].
  split.
  - apply NoDup_cons. split; [set_solver|].
    apply NoDup_app. split; [done|]. split; [set_solver | apply NoDup_singleton].
  - intros a Ha. destruct (decide (a = p)) as [->|].
    + rewrite <- Hframe; [done | set_solver].
    + apply Hfr. set_solver.
  - intros a Ha. rewrite H2, lookup_insert_ne by set_solver.
    rewrite H1, lookup_insert_ne by set_solver. apply Hframe. set_solver.
  - exists (<[length ps := Some p]> slots0).
    rewrite H2, lookup_insert_eq, length_insert. do 2 (split; [done|]).
    intros j q Hq. destruct (decide (j = length ps)) as [->|Hj].
    + rewrite list_lookup_middle in Hq by done. injection Hq as <-.
      by apply list_lookup_insert_eq.
    + rewrite list_lookup_insert_ne by done. apply Hs.
      rewrite lookup_app_l in Hq; [done|].
      apply lookup_lt_Some in Hq. rewrite length_app in Hq. simpl in Hq. lia.
  - intros q Hq. rewrite H2, lookup_insert_ne, H1.
    2:{ intros <-. set_solver. }
    destruct (decide (p = q)) as [->|].
    + rewrite lookup_insert_eq. eauto.
    + rewrite lookup_insert_ne by done. apply Hin. set_solver.
Qed.

(** ** The outer loop of ConstructInputData *)

(** The loop body once, the rest of the loop as its continuation. *)
Lemma ConstructInputData_features_unfold
    todo aFeatureAtomics cSamples aBinnedData outer iFeature :
  ConstructInputData_features todo aFeatureAtomics cSamples aBinnedData
    outer iFeature =
  (let* pInputDataTo := EbmMalloc StorageBlock cSamples in
   match pInputDataTo with
   | None => ret (Some (AllocationFailure, iFeature))
   | Some p =>
       store_pointer outer iFeature p >>
       let* pFeatureAtomic := read_array aFeatureAtomics iFeature in
       let* failed :=
         ConstructInputData_samples (Init.Nat.pred (Z.to_nat cSamples))
           pFeatureAtomic aBinnedData (column_start pFeatureAtomic cSamples)
           p 0 in
       match failed with
       | Some e => ret (Some (e, S iFeature))
       | None =>
           match todo with
           | O => ret None
           | S todo' =>
               ConstructInputData_features todo' aFeatureAtomics cSamples
                 aBinnedData outer (S iFeature)
           end
       end
   end).
Proof. by destruct todo. Qed.

(** One turn of the outer loop, from a construction in progress.  Either
    the allocator refuses the inner block, and the loop leaves for
    [free_all] with nothing changed; or a fresh block [p] joins the
    construction, and then either a value of the feature's column fails
    its checks, and the loop leaves for [free_all] with [p] counted in, or
    the column is stored in [p] and the loop goes on. *)
Lemma ConstructInputData_features_turn
    h0 outer N aFeatureAtomics cSamples aBinnedData todo ps h r h' :
  1 <= cSamples ->
  under_construction h0 outer N ps h ->
  columns_filled aFeatureAtomics cSamples aBinnedData ps h ->
  ConstructInputData_features todo aFeatureAtomics cSamples aBinnedData
    outer (length ps) h = Returns r h' ->
  (r = Some (AllocationFailure, length ps) /\
   live h' = live h /\ calls h' = S (calls h) /\
   malloc_succeeds (calls h) cSamples = false) \/
  exists p f h3,
    aFeatureAtomics !! length ps = Some f /\
    under_construction h0 outer N (ps ++ [p]) h3 /\
    calls h3 = S (calls h) /\
    ((exists e i v,
        (i < Z.to_nat cSamples)%nat /\
        raw_bin aBinnedData f cSamples i = Some v /\ bin_error f v = Some e /\
        r = Some (e, S (length ps)) /\ h' = h3) \/
     (columns_filled aFeatureAtomics cSamples aBinnedData (ps ++ [p]) h3 /\
      match todo with
      | O => r = None /\ h' = h3
      | S todo' =>
          ConstructInputData_features todo' aFeatureAtomics cSamples
            aBinnedData outer (S (length ps)) h3 = Returns r h'
      end)).
Proof.
  intros Hsamples Huc Hfill. rewrite ConstructInputData_features_unfold.
  intros Hrun.
  apply bind_Returns in Hrun as (pInputDataTo & h1 & Hmalloc & Hrun).
  apply EbmMalloc_Returns in Hmalloc as [Hc1 Hmalloc].
  destruct pInputDataTo as [p|].
  2:{ destruct Hmalloc as [Hrefused Hl1]. unfold ret in Hrun.
      injection Hrun as <- <-. by left. }
  destruct Hmalloc as (_ & Hp & Hl1). right.
  apply bind_Returns in Hrun as (u & h2 & Hst & Hrun).
  apply store_pointer_Returns in Hst as (slots & Ho1 & Hi & Hl2 & Hc2).
  apply bind_Returns in Hrun as (f & h2' & Hf & Hrun).
  apply read_array_Returns in Hf as [Hf ->].
  apply bind_Returns in Hrun as (failed & h3 & Hloop & Hrun).
  pose proof (under_construction_grow _ _ _ _ _ _ _ _ _ _ Huc Hp Hl1 Ho1 Hi Hl2)
    as Huc2.
  assert (outer <> p) as Hne
    by (intros ->; rewrite Hl1, lookup_insert_eq in Ho1; done).
  eapply ConstructInputData_samples_post in Hloop
    as (cells' & Hl3 & Hc3 & Hlen' & _ & Hres);
    [|by rewrite Hl2, lookup_insert_ne, Hl1, lookup_insert_eq].
  rewrite length_replicate in Hlen'.
  assert (under_construction h0 outer N (ps ++ [p]) h3) as Huc3
    by (eapply under_construction_inner; [|exact Hl3|exact Huc2]; set_solver).
  exists p, f, h3. do 2 (split; [done|]). split; [lia|].
  destruct failed as [e|].
  { left. unfold ret in Hrun. injection Hrun as <- <-.
    destruct Hres as (i & v & Hi' & Hv & He).
    exists e, i, v. repeat split; try done. lia. }
  right. split.
  - (* the columns stored so far, and the new one *)
    intros j q Hq. destruct (decide (j = length ps)) as [->|Hj].
    + rewrite list_lookup_middle in Hq by done. injection Hq as <-.
      exists f, cells'. split; [done|].
      split; [by rewrite Hl3, lookup_insert_eq|]. split; [done|].
      intros i Hi'. apply (Hres i). lia.
    + assert (ps !! j = Some q) as Hq'.
      { rewrite lookup_app_l in Hq; [done|].
        apply lookup_lt_Some in Hq. rewrite length_app in Hq. simpl in Hq. lia. }
      destruct (Hfill j q Hq') as (fj & cj & Hfj & Hcj & Hrest).
      exists fj, cj. split; [done|]. split; [|done].
      destruct Huc2 as [Hnd2 _ _ _ _].
      apply list_elem_of_lookup_2 in Hq'.
      apply NoDup_cons in Hnd2 as [Hout Hnd2].
      apply NoDup_app in Hnd2 as (_ & Hdis & _).
      assert (q <> p) by (intros ->; apply (Hdis p); set_solver).
      assert (q <> outer) by (intros ->; set_solver).
      by rewrite Hl3, lookup_insert_ne, Hl2, lookup_insert_ne, Hl1,
        lookup_insert_ne by done.
  - destruct todo; [|done]. unfold ret in Hrun. by injection Hrun as <- <-.
Qed.

Lemma ConstructInputData_features_post
    h0 outer N aFeatureAtomics cSamples aBinnedData todo :
  1 <= cSamples ->
  forall ps h r h',
  under_construction h0 outer N ps h ->
  columns_filled aFeatureAtomics cSamples aBinnedData ps h ->
  ConstructInputData_features todo aFeatureAtomics cSamples aBinnedData
    outer (length ps) h = Returns r h' ->
  (calls h <= calls h')%nat /\
  match r with
  | None =>
      exists ps', length ps' = S (length ps + todo) /\
                  under_construction h0 outer N ps' h' /\
                  columns_filled aFeatureAtomics cSamples aBinnedData ps' h'
  | Some (e, k) =>
      exists ps', length ps' = k /\ under_construction h0 outer N ps' h' /\
                  gave_up aFeatureAtomics (S (length ps + todo)) cSamples
                    aBinnedData e
  end.
Proof.
  intros Hsamples.
  induction todo as [|todo IH]; intros ps h r h' Huc Hfill Hrun;
    apply ConstructInputData_features_turn with (h0 := h0) (N := N) in Hrun
      as [(-> & Hl & Hc & Hrefused)
         |(p & f & h3 & Hf & Huc3 & Hc3 &
           [(e & i & v & Hi & Hv & He & -> & ->)|[Hfill3 Hnext]])];
    try done.
  1,4: split; [lia|]; exists ps; split; [done|];
       split; [by eapply under_construction_calls|]; left; eauto.
  1,3: split; [lia|]; exists (ps ++ [p]);
       split; [rewrite length_app; simpl; lia|]; split; [done|]; right;
       exists (length ps), f, i, v; repeat split; try done; lia.
  - destruct Hnext as [-> ->]. split; [lia|]. exists (ps ++ [p]).
    rewrite length_app. simpl. split; [lia | done].
  - replace (S (length ps)) with (length (ps ++ [p])) in Hnext
      by (rewrite length_app; simpl; lia).
    apply IH in Hnext as [Hcalls Hr]; [|done..].
    rewrite length_app in Hr. simpl in Hr.
    replace (S (length ps + 1 + todo)) with (S (length ps + S todo)) in Hr by lia.
    split; [lia|]. by destruct r as [[e k]|].
Qed.

(** ** The code at free_all *)

(** From any state of a construction in progress, [free_all] releases
    every inner block and the outer block, and the live heap is again what
    it was before [ConstructInputData] started. *)
Lemma ConstructInputData_free_all_spec h0 outer N ps :
  forall h,
  under_construction h0 outer N ps h ->
  exists h',
    ConstructInputData_free_all (length ps) outer h = Returns tt h' /\
    live h' = live h0 /\ calls h' = calls h.
Proof.
  induction ps as [|p ps IH] using rev_ind; intros h Huc.
  - destruct Huc as [Hnd Hfr Hframe (slots & Ho & _) _]. simpl.
    unfold free. rewrite Ho. eexists. split; [done|]. split; [|done]. simpl.
    apply map_eq. intros a. destruct (decide (a = outer)) as [->|Hne].
    + rewrite lookup_delete_eq. symmetry. apply Hfr. set_solver.
    + rewrite lookup_delete_ne by done. apply Hframe. set_solver.
  - rewrite length_app. simpl. rewrite Nat.add_1_r. simpl.
    pose proof Huc as [Hnd Hfr Hframe (slots & Ho & Hn & Hs) Hin].
    unfold bind at 1, load_pointer. rewrite Ho.
    rewrite (Hs (length ps) p) by (by apply list_lookup_middle).
    unfold bind at 1, free. destruct (Hin p) as [b Hb]; [set_solver|].
    rewrite Hb.
    apply NoDup_cons in Hnd as [Hout Hnd].
    apply NoDup_app in Hnd as (Hnd & Hdis & _).
    assert (p ∉ ps) as Hp by (intros ?; by apply (Hdis p); [|set_solver]).
    assert (outer <> p) as Hne by set_solver.
    destruct (IH {| live := delete p (live h); calls := calls h |})
      as (h' & Hrun & Hl & Hc); [|by exists h'].
    split; simpl.
    + apply NoDup_cons. split; [set_solver | done].
    + intros a Ha. apply Hfr. set_solver.
    + intros a Ha. destruct (decide (a = p)) as [->|].
      * rewrite lookup_delete_eq. symmetry. apply Hfr. set_solver.
      * rewrite lookup_delete_ne by done. apply Hframe. set_solver.
    + exists slots. rewrite lookup_delete_ne by done. do 2 (split; [done|]).
      intros j q Hq. apply Hs. by apply lookup_app_l_Some.
    + intros q Hq. rewrite lookup_delete_ne by set_solver. apply Hin. set_solver.
Qed.

(** ** ConstructInputData as a whole *)

Lemma under_construction_start h outer N h1 :
  live h !! outer = None ->
  live h1 = <[outer := PointerBlock (replicate N None)]> (live h) ->
  under_construction h outer N [] h1.
Proof.
  intros Ho Hl. split.
  - apply NoDup_singleton.
  - intros a Ha. by assert (a = outer) as -> by set_solver.
  - intros a Ha. rewrite Hl, lookup_insert_ne; [done | set_solver].
  - exists (replicate N None). rewrite Hl, lookup_insert_eq, length_replicate.
    do 2 (split; [done|]). intros j p Hj. done.
  - intros p Hp. set_solver.
Qed.

Lemma ConstructInputData_post
    cFeatures aFeatureAtomics cSamples aBinnedData h r h' :
  ConstructInputData cFeatures aFeatureAtomics cSamples aBinnedData h = Returns r h' ->
  0 < cFeatures /\ 0 < cSamples /\ (calls h < calls h')%nat /\
  match r with
  | inl e =>
      live h' = live h /\
      gave_up aFeatureAtomics (Z.to_nat cFeatures) cSamples aBinnedData e
  | inr outer =>
      binned_columns cFeatures aFeatureAtomics cSamples aBinnedData outer h' /\
      exists ps, NoDup (outer :: ps) /\
        (forall a, a ∈ outer :: ps -> live h !! a = None) /\
        (forall a, a ∉ outer :: ps -> live h' !! a = live h !! a)
  end.
Proof.
  unfold ConstructInputData. intros Hrun.
  apply bind_Returns in Hrun as (u1 & h1 & Ha1 & Hrun).
  apply EBM_ASSERT_Returns in Ha1 as [HcF ->].
  apply bind_Returns in Hrun as (u2 & h2 & Ha2 & Hrun).
  apply EBM_ASSERT_Returns in Ha2 as [HcS ->].
  apply Z.ltb_lt in HcF, HcS. do 2 (split; [done|]).
  apply bind_Returns in Hrun as (aaInputDataTo & h1 & Hmalloc & Hrun).
  apply EbmMalloc_Returns in Hmalloc as [Hc1 Hmalloc].
  destruct aaInputDataTo as [outer|].
  2:{ destruct Hmalloc as [Hrefused Hl]. unfold ret in Hrun.
      injection Hrun as <- <-. split; [lia|]. split; [done|]. left. eauto. }
  destruct Hmalloc as (_ & Ho & Hl1).
  apply bind_Returns in Hrun as (failed & h2 & Hloop & Hrun).
  pose proof (under_construction_start _ _ _ _ Ho Hl1) as Huc.
  change 0%nat with (length (@nil addr)) in Hloop.
  eapply ConstructInputData_features_post in Hloop as [Hcalls Hr];
    [| lia | exact Huc | by intros j p Hj].
  simpl in Hr. destruct failed as [[e k]|].
  - destruct Hr as (ps & Hk & Huc' & Hg). subst k.
    apply bind_Returns in Hrun as (u & h3 & Hfree & Hrun).
    destruct (ConstructInputData_free_all_spec _ _ _ _ _ Huc')
      as (h3' & Hfree' & Hl3 & Hc3).
    rewrite Hfree' in Hfree. injection Hfree as _ <-.
    unfold ret in Hrun. injection Hrun as <- <-.
    split; [lia|]. split; [done|].
    replace (Z.to_nat cFeatures) with (S (Z.to_nat cFeatures - 1)) by lia.
    replace (Z.to_nat cFeatures - 1)%nat with (Init.Nat.pred (Z.to_nat cFeatures)) by lia.
    done.
  - destruct Hr as (ps & Hlen & Huc' & Hfill).
    unfold ret in Hrun. injection Hrun as <- <-. split; [lia|].
    destruct Huc' as [Hnd Hfr Hframe (slots & Hos & Hn & Hs) Hin].
    split; [|by exists ps].
    exists slots. do 2 (split; [done|]). intros j Hj.
    destruct (lookup_lt_is_Some_2 ps j) as [p Hp]; [lia|].
    destruct (Hfill j p Hp) as (f & cells & ? & ? & ? & ?).
    exists p, f, cells. split; [by apply Hs | done].
Qed.

Lemma ConstructInputData_features_total
    h0 outer N aFeatureAtomics cSamples aBinnedData todo :
  1 <= cSamples ->
  forall ps h,
  under_construction h0 outer N ps h ->
  (length ps + todo < N)%nat ->
  columns_in_bounds (S (length ps + todo)) aFeatureAtomics cSamples aBinnedData ->
  exists r h',
    ConstructInputData_features todo aFeatureAtomics cSamples aBinnedData
      outer (length ps) h = Returns r h'.
Proof.
  intros Hsamples.
  induction todo as [|todo IH]; intros ps h Huc HN Hin;
    rewrite ConstructInputData_features_unfold;
    (destruct (Hin (length ps)) as (f & Hf & Hcol); [lia|]);
    pose proof Huc as [Hnd Hfr Hframe (slots & Ho & Hn & Hs) Hinner];
    unfold bind at 1;
    (destruct (EbmMalloc StorageBlock cSamples h) as [|[p|] h1] eqn:Hm;
       [unfold EbmMalloc in Hm; by destruct (malloc_succeeds _ _) | | by eauto]);
    apply EbmMalloc_Returns in Hm as (Hc1 & _ & Hp & Hl1);
    (assert (outer <> p) as Hne by (intros ->; congruence));
    unfold bind at 1, store_pointer;
    rewrite Hl1, lookup_insert_ne, Ho by done;
    (case_decide; [|lia]);
    unfold bind at 1, read_array; rewrite Hf; unfold ret at 1;
    set (h2 := {| live := _; calls := calls h1 |});
    (assert (live h2 !! p =
             Some (StorageBlock (replicate (Z.to_nat cSamples) None))) as Hp2
       by (simpl; by rewrite lookup_insert_ne, lookup_insert_eq));
    (destruct (ConstructInputData_samples_total f aBinnedData
                 (column_start f cSamples) p
                 (Init.Nat.pred (Z.to_nat cSamples)) 0 h2 _ Hp2)
       as (failed & h3 & Hloop);
       [rewrite length_replicate; lia
       |intros i Hi; apply Hcol; lia
       |]);
    unfold bind at 1; rewrite Hloop;
    (destruct failed as [e|]; [by eauto|]).
  - by eauto.
  - (* the loop goes on, from the construction with [p] counted in *)
    replace (S (length ps)) with (length (ps ++ [p]))
      by (rewrite length_app; simpl; lia).
    apply IH.
    + eapply ConstructInputData_samples_post in Hloop
        as (cells' & Hl3 & _); [|exact Hp2].
      eapply under_construction_inner; [|exact Hl3|]; [set_solver|].
      apply (under_construction_grow h0 outer N ps h h1 h2 p _ slots Huc Hp Hl1).
      * by rewrite Hl1, lookup_insert_ne.
      * lia.
      * simpl. by rewrite Hl1.
    + rewrite length_app. simpl. lia.
    + intros j Hj. apply Hin. rewrite length_app in Hj. simpl in Hj. lia.
Qed.

Lemma ConstructInputData_total
    cFeatures aFeatureAtomics cSamples aBinnedData h :
  0 < cFeatures -> 0 < cSamples ->
  columns_in_bounds (Z.to_nat cFeatures) aFeatureAtomics cSamples aBinnedData ->
  exists r h',
    ConstructInputData cFeatures aFeatureAtomics cSamples aBinnedData h = Returns r h'.
Proof.
  intros HcF HcS Hin. unfold ConstructInputData.
  apply Z.ltb_lt in HcF as HcF', HcS as HcS'. rewrite HcF', HcS'. simpl.
  unfold bind at 1, ret at 1. unfold bind at 1, ret at 1. unfold bind at 1.
  destruct (EbmMalloc PointerBlock cFeatures h) as [|[outer|] h1] eqn:Hm;
    [unfold EbmMalloc in Hm; by destruct (malloc_succeeds _ _) | | by eauto].
  apply EbmMalloc_Returns in Hm as (Hc1 & _ & Ho & Hl1).
  pose proof (under_construction_start _ _ _ _ Ho Hl1) as Huc.
  destruct (ConstructInputData_features_total h outer _ aFeatureAtomics cSamples
              aBinnedData (Init.Nat.pred (Z.to_nat cFeatures)) ltac:(lia) [] h1 Huc)
    as (failed & h2 & Hloop); [simpl; lia | |].
  { intros j Hj. apply Hin. simpl in Hj. lia. }
  simpl in Hloop.
  unfold bind at 1. rewrite Hloop. destruct failed as [[e k]|]; [|by eauto].
  change 0%nat with (length (@nil addr)) in Hloop.
  eapply ConstructInputData_features_post in Hloop as [_ (ps & Hk & Huc' & _)];
    [| lia | exact Huc | by intros j p Hj].
  subst k.
  destruct (ConstructInputData_free_all_spec _ _ _ _ _ Huc') as (h3 & Hfree & _).
  unfold bind. rewrite Hfree. by eauto.
Qed.

(** ** The target loop of Initialize *)

Lemma Initialize_targets_step todo aTargetData K i h :
  Initialize_targets todo aTargetData K i h =
  match aTargetData !! i with
  | None => Undefined ReadOutOfBounds
  | Some v =>
      match label_error K v with
      | Some e => Returns (Some e) h
      | None =>
          match todo with
          | O => Returns None h
          | S todo' => Initialize_targets todo' aTargetData K (S i) h
          end
      end
  end.
Proof.
  assert (Hbody : forall k : M (option ErrorKind),
    bind (read_array aTargetData i)
      (fun data =>
         if data <? 0 then ret (Some NegativeLabel)
         else if negb (IsNumberConvertable STORAGE_MAX data)
         then ret (Some LabelOverflow)
         else if negb (IsNumberConvertable SIZE_MAX data)
         then ret (Some LabelOverflow)
         else if K <=? to_size_t data then ret (Some LabelOutOfRange)
         else k) h =
    match aTargetData !! i with
    | None => Undefined ReadOutOfBounds
    | Some v =>
        match label_error K v with
        | Some e => Returns (Some e) h
        | None => k h
        end
    end).
  { intros k. unfold bind at 1, read_array.
    destruct (aTargetData !! i) as [v|]; [|done].
    unfold ret at 1, label_error.
    destruct (check_cases K v) as
      [H1 ?|H1 H2 ? ?|H1 H2 H3 ? ? ?|H1 H2 H3 H4 ? ? ? ?|H1 H2 H3 H4 ? ? ? ?];
      rewrite ?H1, ?H2, ?H3; simpl; rewrite ?H4;
      repeat case_decide; try done; lia. }
  destruct todo; simpl; apply Hbody.
Qed.

(** The loop changes nothing; it stops at the first target that does not
    pass, with that target's error. *)
Lemma Initialize_targets_post aTargetData K todo :
  forall i h r h',
  Initialize_targets todo aTargetData K i h = Returns r h' ->
  h' = h /\
  match r with
  | None =>
      forall j, (i <= j <= i + todo)%nat ->
      exists v, aTargetData !! j = Some v /\ valid_label K v
  | Some e =>
      exists k v, (i <= k <= i + todo)%nat /\
        aTargetData !! k = Some v /\ label_error K v = Some e /\
        forall j, (i <= j < k)%nat ->
        exists w, aTargetData !! j = Some w /\ valid_label K w
  end.
Proof.
  induction todo as [|todo IH]; intros i h r h';
    rewrite Initialize_targets_step;
    destruct (aTargetData !! i) as [v|] eqn:Hv; try done;
    destruct (label_error K v) as [e|] eqn:Hchk.
  1,3: intros [= <- <-]; split; [done|]; exists i, v;
       repeat split; try done; try lia; intros j Hj; lia.
  - intros [= <- <-]. split; [done|]. intros j Hj.
    assert (j = i) as -> by lia. exists v. split; [done|].
    by apply label_error_None.
  - intros Hrun. apply IH in Hrun as [-> Hr]. split; [done|].
    destruct r as [e|].
    + destruct Hr as (k & w & Hk & Hw & He & Hbefore).
      exists k, w. repeat split; try done; try lia.
      intros j Hj. destruct (decide (j = i)) as [->|].
      * exists v. split; [done|]. by apply label_error_None.
      * apply Hbefore. lia.
    + intros j Hj. destruct (decide (j = i)) as [->|].
      * exists v. split; [done|]. by apply label_error_None.
      * apply Hr. lia.
Qed.

Lemma Initialize_targets_total aTargetData K todo :
  forall i h,
  (forall j, (i <= j <= i + todo)%nat -> is_Some (aTargetData !! j)) ->
  exists r, Initialize_targets todo aTargetData K i h = Returns r h.
Proof.
  induction todo as [|todo IH]; intros i h Hin;
    rewrite Initialize_targets_step;
    (destruct (Hin i) as [v ->]; [lia|]);
    (destruct (label_error K v); [by eauto|]).
  - by eauto.
  - apply IH. intros j Hj. apply Hin. lia.
Qed.

(** ** ConstructGradients as a whole *)

(** What [ConstructGradients] does once its assertions hold, exit by
    exit. *)
Lemma ConstructGradients_spec cSamples aTargetData aPredictorScores d h :
  1 <= cSamples -> d <> 0 -> 1 <= GetVectorLength d ->
  ConstructGradients cSamples aTargetData aPredictorScores d h =
  let cElements := cSamples * GetVectorLength d in
  if decide (SIZE_MAX < cElements) then Returns (inl SizeOverflow) h
  else if malloc_succeeds (calls h) cElements then
    let a := fresh (dom (live h)) in
    let r := InitializeGradients d cSamples aTargetData aPredictorScores
               (replicate (Z.to_nat cElements) None) in
    if fst r then
      Returns (inl GradientInitFailed) {| live := live h; calls := S (calls h) |}
    else
      Returns (inr a)
        {| live := <[a := GradientBlock (snd r)]> (live h); calls := S (calls h) |}
  else Returns (inl AllocationFailure) {| live := live h; calls := S (calls h) |}.
Proof.
  intros HcS Hd Hvl. unfold ConstructGradients.
  rewrite (proj2 (Z.leb_le 1 cSamples) HcS), (proj2 (Z.eqb_neq d 0) Hd),
    (proj2 (Z.leb_le 1 _) Hvl).
  simpl.
  unfold bind at 1, ret at 1. unfold bind at 1, ret at 1.
  unfold bind at 1, ret at 1. unfold IsMultiplyError.
  case_decide as Hov.
  { apply Z.ltb_lt in Hov as ->. done. }
  assert (Hov' : (SIZE_MAX <? cSamples * GetVectorLength d) = false)
    by (apply Z.ltb_ge; lia).
  rewrite Hov'.
  rewrite to_size_t_id; [| apply Z.mul_nonneg_nonneg; lia | lia].
  unfold bind at 1, EbmMalloc.
  destruct (malloc_succeeds (calls h) (cSamples * GetVectorLength d)); [|done].
  unfold bind at 1, gradient_cells. simpl. rewrite lookup_insert_eq.
  unfold bind at 1, set_gradient_cells. simpl. rewrite lookup_insert_eq.
  rewrite insert_insert_eq.
  destruct (fst _); [|done].
  unfold bind, free, ret. simpl. rewrite lookup_insert_eq.
  rewrite delete_insert_eq, delete_id; [done|].
  apply not_elem_of_dom, is_fresh.
Qed.

Lemma ConstructGradients_asserts cSamples aTargetData aPredictorScores d h r h' :
  ConstructGradients cSamples aTargetData aPredictorScores d h = Returns r h' ->
  1 <= cSamples /\ d <> 0 /\ 1 <= GetVectorLength d.
Proof.
  unfold ConstructGradients. intros Hrun.
  apply bind_Returns in Hrun as (? & ? & Ha & Hrun).
  apply EBM_ASSERT_Returns in Ha as [H1 ->].
  apply bind_Returns in Hrun as (? & ? & Ha & Hrun).
  apply EBM_ASSERT_Returns in Ha as [H2 ->].
  apply bind_Returns in Hrun as (? & ? & Ha & Hrun).
  apply EBM_ASSERT_Returns in Ha as [H3 ->].
  apply Z.leb_le in H1, H3. apply negb_true_iff, Z.eqb_neq in H2. done.
Qed.

(** Whatever it returns, [ConstructGradients] leaves the live heap as it
    was or with one more block, the gradient buffer. *)
Lemma ConstructGradients_post cSamples aTargetData aPredictorScores d h r h' :
  ConstructGradients cSamples aTargetData aPredictorScores d h = Returns r h' ->
  match r with
  | inl e =>
      live h' = live h /\
      (e = SizeOverflow \/ e = AllocationFailure \/ e = GradientInitFailed)
  | inr a =>
      live h !! a = None /\ calls h' = S (calls h) /\
      live h' =
        <[a := GradientBlock
                 (snd (InitializeGradients d cSamples aTargetData aPredictorScores
                         (replicate (Z.to_nat (cSamples * GetVectorLength d)) None)))]>
          (live h)
  end.
Proof.
  intros Hrun.
  pose proof (ConstructGradients_asserts _ _ _ _ _ _ _ Hrun) as (? & ? & ?).
  rewrite ConstructGradients_spec in Hrun by done. simpl in Hrun.
  case_decide; [injection Hrun as <- <-; eauto|].
  destruct (malloc_succeeds _ _); [|injection Hrun as <- <-; eauto].
  destruct (fst _); injection Hrun as <- <-; simpl; [eauto|].
  split; [|done]. apply not_elem_of_dom, is_fresh.
Qed.

(** ** Initialize, exit by exit *)

Lemma validate_targets_Returns cSamples aTargetData d h r h' :
  validate_targets cSamples aTargetData d h = Returns r h' -> h' = h.
Proof.
  unfold validate_targets. destruct (IsClassification d).
  - intros Hrun. by apply Initialize_targets_post in Hrun as [-> _].
  - by intros [= <- <-].
Qed.

Lemma Initialize_inv
    this cFeatureAtomics aFeatureAtomics cSamples aBinnedData aTargetData
    aPredictorScores d h r this' h' :
  Initialize this cFeatureAtomics aFeatureAtomics cSamples aBinnedData
    aTargetData aPredictorScores d h = Returns (r, this') h' ->
  initial this /\
  Initialize_exit this cFeatureAtomics aFeatureAtomics cSamples aBinnedData
    aTargetData aPredictorScores d h r this' h'.
Proof.
  unfold Initialize. intros Hrun.
  apply bind_Returns in Hrun as (? & ? & Ha & Hrun).
  apply EBM_ASSERT_Returns in Ha as [H1 ->].
  apply bind_Returns in Hrun as (? & ? & Ha & Hrun).
  apply EBM_ASSERT_Returns in Ha as [H2 ->].
  apply bind_Returns in Hrun as (? & ? & Ha & Hrun).
  apply EBM_ASSERT_Returns in Ha as [H3 ->].
  apply bool_decide_eq_true in H1, H2. apply Z.eqb_eq in H3.
  split; [done|].
  destruct (Z.eqb_spec cSamples 0) as [->|HcS]; simpl in Hrun.
  { unfold ret in Hrun. injection Hrun as <- <- <-. by constructor. }
  apply bind_Returns in Hrun as (? & ? & Ha & Hrun).
  apply EBM_ASSERT_Returns in Ha as [Hd ->].
  apply negb_true_iff, Z.eqb_neq in Hd.
  apply bind_Returns in Hrun as (bad & h1 & Hval & Hrun).
  change (validate_targets cSamples aTargetData d h = Returns bad h1) in Hval.
  pose proof (validate_targets_Returns _ _ _ _ _ _ Hval) as ->.
  destruct bad as [e|].
  { unfold ret in Hrun. injection Hrun as <- <- <-. by constructor. }
  apply bind_Returns in Hrun as (g & h1 & Hg & Hrun).
  destruct g as [e|aGradients].
  { unfold ret in Hrun. injection Hrun as <- <- <-. by econstructor. }
  apply bind_Returns in Hrun as (committed & h2 & Hc & Hrun).
  destruct (Z.eqb_spec cFeatureAtomics 0) as [->|HcF]; simpl in Hc.
  { unfold ret in Hc. injection Hc as <- <-.
    unfold ret in Hrun. injection Hrun as <- <- <-.
    unfold set_cFeatureAtomics, set_cSamples, set_aGradients. simpl.
    by eapply exit_commit_featureless. }
  apply bind_Returns in Hc as (c & h3 & Hcid & Hc).
  destruct c as [e|aaInputData].
  - apply bind_Returns in Hc as ([] & h4 & Hfree & Hc).
    unfold ret in Hc. injection Hc as <- <-.
    unfold ret in Hrun. injection Hrun as <- <- <-. by eapply exit_input.
  - unfold ret in Hc. injection Hc as <- <-.
    unfold ret in Hrun. injection Hrun as <- <- <-.
    unfold set_cFeatureAtomics, set_cSamples, set_aGradients, set_aaInputData.
    simpl. by eapply exit_commit.
Qed.

Lemma initial_asserts this (k : M (option ErrorKind * DataFrameInteraction)) h :
  initial this ->
  (EBM_ASSERT (bool_decide (m_aGradients this = nullptr)) >>
   EBM_ASSERT (bool_decide (m_aaInputData this = nullptr)) >>
   EBM_ASSERT (m_cSamples this =? 0) >> k) h = k h.
Proof.
  intros (H1 & H2 & H3). rewrite H1, H2, H3.
  rewrite !bool_decide_eq_true_2 by done. done.
Qed.

(** The empty frame: with no samples [Initialize] only records the
    feature count. *)
Lemma Initialize_empty
    this cFeatureAtomics aFeatureAtomics aBinnedData aTargetData
    aPredictorScores d h :
  initial this ->
  Initialize this cFeatureAtomics aFeatureAtomics 0 aBinnedData aTargetData
    aPredictorScores d h =
  Returns (None, set_cFeatureAtomics cFeatureAtomics this) h.
Proof. intros Hinit. unfold Initialize. by rewrite initial_asserts. Qed.

(** [Initialize] with samples, as the sequence of its three phases. *)
Lemma Initialize_run
    this cFeatureAtomics aFeatureAtomics cSamples aBinnedData aTargetData
    aPredictorScores d h :
  initial this -> cSamples <> 0 -> d <> 0 ->
  Initialize this cFeatureAtomics aFeatureAtomics cSamples aBinnedData
    aTargetData aPredictorScores d h =
  match validate_targets cSamples aTargetData d h with
  | Undefined why => Undefined why
  | Returns (Some e) h0 => Returns (Some e, this) h0
  | Returns None h0 =>
      match ConstructGradients cSamples aTargetData aPredictorScores d h0 with
      | Undefined why => Undefined why
      | Returns (inl e) h1 => Returns (Some e, this) h1
      | Returns (inr aGradients) h1 =>
          if decide (cFeatureAtomics = 0) then
            Returns (None,
                     {| m_aGradients := Some aGradients;
                        m_aaInputData := m_aaInputData this;
                        m_cSamples := cSamples;
                        m_cFeatureAtomics := cFeatureAtomics |}) h1
          else
            match ConstructInputData cFeatureAtomics aFeatureAtomics cSamples
                    aBinnedData h1 with
            | Undefined why => Undefined why
            | Returns (inl e) h2 =>
                match free (Some aGradients) h2 with
                | Undefined why => Undefined why
                | Returns _ h3 => Returns (Some e, this) h3
                end
            | Returns (inr aaInputData) h2 =>
                Returns (None,
                         {| m_aGradients := Some aGradients;
                            m_aaInputData := Some aaInputData;
                            m_cSamples := cSamples;
                            m_cFeatureAtomics := cFeatureAtomics |}) h2
            end
      end
  end.
Proof.
  intros Hinit HcS Hd. unfold Initialize. rewrite initial_asserts by done.
  rewrite (proj2 (Z.eqb_neq cSamples 0) HcS), (proj2 (Z.eqb_neq d 0) Hd). simpl.
  unfold bind at 1, ret at 1. unfold bind at 1.
  change (if IsClassification d then _ else _)
    with (validate_targets cSamples aTargetData d).
  destruct (validate_targets cSamples aTargetData d h) as [|[e|] h0]; try done.
  unfold bind at 1.
  destruct (ConstructGradients _ _ _ _ h0) as [|[e|aGradients] h1]; try done.
  case_decide as HcF.
  - rewrite (proj2 (Z.eqb_eq cFeatureAtomics 0) HcF). done.
  - rewrite (proj2 (Z.eqb_neq cFeatureAtomics 0) HcF). simpl.
    unfold bind at 1. unfold bind at 1.
    destruct (ConstructInputData _ _ _ _ h1) as [|[e|aaInputData] h2]; try done.
    unfold bind at 1, free. by destruct (live h2 !! aGradients).
Qed.

Lemma Initialize_targets_accepts aTargetData K todo :
  forall i h,
  (forall j, (i <= j <= i + todo)%nat ->
             exists v, aTargetData !! j = Some v /\ valid_label K v) ->
  Initialize_targets todo aTargetData K i h = Returns None h.
Proof.
  induction todo as [|todo IH]; intros i h Hok;
    rewrite Initialize_targets_step;
    (destruct (Hok i) as (v & -> & Hv); [lia|]);
    apply label_error_None in Hv as ->; [done|].
  apply IH. intros j Hj. apply Hok. lia.
Qed.

(** A target that does not pass stops the loop, at that target or
    before. *)
Lemma Initialize_targets_rejects aTargetData K todo :
  forall i h k v,
  (i <= k <= i + todo)%nat ->
  aTargetData !! k = Some v -> label_error K v <> None ->
  exists e k' v',
    Initialize_targets todo aTargetData K i h = Returns (Some e) h /\
    (i <= k' <= k)%nat /\ aTargetData !! k' = Some v' /\
    label_error K v' = Some e /\
    forall j, (i <= j < k')%nat ->
    exists w, aTargetData !! j = Some w /\ valid_label K w.
Proof.
  induction todo as [|todo IH]; intros i h k v Hk Hv Hbad;
    rewrite Initialize_targets_step;
    (destruct (lookup_lt_is_Some_2 aTargetData i) as [w Hw];
     [apply lookup_lt_Some in Hv; lia|]);
    rewrite Hw; destruct (label_error K w) as [e|] eqn:Hchk.
  1,3: exists e, i, w; repeat split; try done; try lia; intros j Hj; lia.
  - assert (k = i) as -> by lia. congruence.
  - assert (k <> i) by (intros ->; congruence).
    destruct (IH (S i) h k v) as (e & k' & v' & Hrun & Hk' & Hv' & He & Hbefore);
      [lia | done | done |].
    exists e, k', v'. repeat split; try done; try lia.
    intros j Hj. destruct (decide (j = i)) as [->|].
    + exists w. split; [done|]. by apply label_error_None.
    + apply Hbefore. lia.
Qed.

Lemma validate_targets_pass cSamples aTargetData d h :
  0 < cSamples -> targets_pass cSamples aTargetData d ->
  validate_targets cSamples aTargetData d h = Returns None h.
Proof.
  intros HcS Hpass. unfold validate_targets.
  destruct (IsClassification d) eqn:Hc; [|done].
  apply Initialize_targets_accepts. intros j Hj. apply Hpass; [done | lia].
Qed.

Lemma bin_error_kind f v e :
  bin_error f v = Some e ->
  e = NegativeBinIndex \/ e = BinIndexOverflow \/ e = BinIndexOutOfRange.
Proof. unfold bin_error. repeat case_decide; intros [= <-]; eauto. Qed.

Lemma label_error_kind K v e :
  label_error K v = Some e ->
  e = NegativeLabel \/ e = LabelOverflow \/ e = LabelOutOfRange.
Proof. unfold label_error. repeat case_decide; intros [= <-]; eauto. Qed.

Lemma gave_up_kind aFeatureAtomics n cSamples aBinnedData e :
  gave_up aFeatureAtomics n cSamples aBinnedData e ->
  e = AllocationFailure \/ e = NegativeBinIndex \/ e = BinIndexOverflow \/
  e = BinIndexOutOfRange.
Proof.
  intros [[-> _]|(j & f & i & v & _ & _ & _ & _ & He)]; [by left|].
  apply bin_error_kind in He. tauto.
Qed.

(** In the state [Initialize] is in when [ConstructInputData] has failed,
    freeing the gradient buffer brings back the live heap it started
    from. *)
Lemma free_gradients_restores h h1 h2 h3 aGradients b :
  live h !! aGradients = None ->
  live h1 = <[aGradients := b]> (live h) ->
  live h2 = live h1 ->
  free (Some aGradients) h2 = Returns tt h3 ->
  live h3 = live h.
Proof.
  intros Hg Hl1 Hl2 Hfree. apply free_Returns in Hfree as (_ & _ & ->).
  by rewrite Hl2, Hl1, delete_insert_eq, delete_id.
Qed.

(** ** The claims *)

(** C1. Failure atomicity of [Initialize]: with [cSamples > 0], whenever
    [Initialize] returns [true] — after a rejected target, after
    [ConstructGradients] failed, or after [ConstructInputData] failed — the
    object is the one it was called on, still in the empty state the head
    of the function asserts ([m_aGradients] and [m_aaInputData] null,
    [m_cSamples] zero, [m_cFeatureAtomics] not updated), and the live heap
    is the one it started from. *)
Theorem Initialize_failure_atomic
    this cFeatureAtomics aFeatureAtomics cSamples aBinnedData aTargetData
    aPredictorScores d h e this' h' :
  0 < cSamples ->
  Initialize this cFeatureAtomics aFeatureAtomics cSamples aBinnedData
    aTargetData aPredictorScores d h = Returns (Some e, this') h' ->
  this' = this /\
  m_aGradients this' = nullptr /\ m_aaInputData this' = nullptr /\
  m_cSamples this' = 0 /\
  m_cFeatureAtomics this' = m_cFeatureAtomics this /\
  live h' = live h.
Proof.
  intros HcS Hrun.
  apply Initialize_inv in Hrun as [(Hg & Hi & Hs) Hexit].
  inversion Hexit as
    [ | e' ? ? Hval | e' h1 ? ? Hval Hcg
    | e' g h1 h2 h3 ? ? ? Hval Hcg Hcid Hfree | | ]; subst.
  - done.
  - apply ConstructGradients_post in Hcg as [Hl _]. done.
  - apply ConstructGradients_post in Hcg as (Hfresh & _ & Hl1).
    apply ConstructInputData_post in Hcid as (_ & _ & _ & Hl2 & _).
    repeat split; try done.
    by eapply free_gradients_restores.
Qed.

Lemma Destruct_empty this h :
  m_aGradients this = nullptr -> m_aaInputData this = nullptr ->
  Destruct this h = Returns tt h.
Proof. intros Hg Hi. unfold Destruct. by rewrite Hg, Hi. Qed.

(** C7. The empty frame: from the initial object and with [cSamples = 0],
    whatever the other arguments, [Initialize] returns [false], leaves the
    heap as it was (no block allocated, no allocation even asked for),
    leaves both pointers null and the sample count zero, records
    [cFeatureAtomics], and [Destruct] on the resulting object changes
    nothing. *)
Theorem Initialize_empty_frame
    this cFeatureAtomics aFeatureAtomics aBinnedData aTargetData
    aPredictorScores d h :
  initial this ->
  exists this',
    Initialize this cFeatureAtomics aFeatureAtomics 0 aBinnedData aTargetData
      aPredictorScores d h = Returns (None, this') h /\
    returns_true None = false /\
    m_aGradients this' = nullptr /\ m_aaInputData this' = nullptr /\
    m_cSamples this' = 0 /\ m_cFeatureAtomics this' = cFeatureAtomics /\
    Destruct this' h = Returns tt h.
Proof.
  intros Hinit. exists (set_cFeatureAtomics cFeatureAtomics this).
  pose proof Hinit as (Hg & Hi & Hs).
  split; [by apply Initialize_empty|].
  repeat split; try done. by apply Destruct_empty.
Qed.

(** C10. With [cSamples = 0] nothing is validated: from the initial
    object there is one outcome for all feature descriptors, bin data,
    target data, scores and descriptor, well formed or not.  [Initialize]
    returns [false] on the heap it was given, and the object it leaves has
    [m_cFeatureAtomics] equal to [cFeatureAtomics], both pointers null and
    the sample count zero. *)
Theorem Initialize_zero_samples_unvalidated this cFeatureAtomics h :
  initial this ->
  exists this',
    m_cFeatureAtomics this' = cFeatureAtomics /\
    m_aGradients this' = nullptr /\ m_aaInputData this' = nullptr /\
    m_cSamples this' = 0 /\
    forall aFeatureAtomics aBinnedData aTargetData aPredictorScores d,
      Initialize this cFeatureAtomics aFeatureAtomics 0 aBinnedData
        aTargetData aPredictorScores d h = Returns (None, this') h.
Proof.
  intros Hinit. pose proof Hinit as (Hg & Hi & Hs).
  exists (set_cFeatureAtomics cFeatureAtomics this).
  repeat split; try done.
  intros. by apply Initialize_empty.
Qed.

Lemma ConstructGradients_targets cSamples t1 t2 aPredictorScores d h :
  (forall cells,
     InitializeGradients d cSamples t1 aPredictorScores cells =
     InitializeGradients d cSamples t2 aPredictorScores cells) ->
  ConstructGradients cSamples t1 aPredictorScores d h =
  ConstructGradients cSamples t2 aPredictorScores d h.
Proof.
  intros Hsame. unfold ConstructGradients, bind.
  destruct (EBM_ASSERT (1 <=? cSamples) h) as [|u1 h1]; [done|].
  destruct (EBM_ASSERT (negb (d =? 0)) h1) as [|u2 h2]; [done|].
  destruct (EBM_ASSERT (1 <=? GetVectorLength d) h2) as [|u3 h3]; [done|].
  destruct (IsMultiplyError _ _); [done|].
  destruct (EbmMalloc _ _ _) as [|[a|] h4]; try done.
  destruct (gradient_cells a h4) as [|cells h5]; [done|].
  by rewrite Hsame.
Qed.

(** C8. Regression skips the target checks: when the descriptor is not a
    classification, [Initialize] never returns with [NegativeLabel],
    [LabelOverflow] or [LabelOutOfRange], and the target data reach the
    outcome only through the external [InitializeGradients] — two target
    buffers on which that routine agrees give the same outcome, whatever
    they hold. *)
Theorem Initialize_regression_skips_validation
    this cFeatureAtomics aFeatureAtomics cSamples aBinnedData aTargetData
    aPredictorScores d h :
  0 < cSamples ->
  IsClassification d = false ->
  (forall e this' h',
     Initialize this cFeatureAtomics aFeatureAtomics cSamples aBinnedData
       aTargetData aPredictorScores d h = Returns (Some e, this') h' ->
     e <> NegativeLabel /\ e <> LabelOverflow /\ e <> LabelOutOfRange) /\
  (forall aTargetData',
     (forall cells,
        InitializeGradients d cSamples aTargetData aPredictorScores cells =
        InitializeGradients d cSamples aTargetData' aPredictorScores cells) ->
     Initialize this cFeatureAtomics aFeatureAtomics cSamples aBinnedData
       aTargetData aPredictorScores d h =
     Initialize this cFeatureAtomics aFeatureAtomics cSamples aBinnedData
       aTargetData' aPredictorScores d h).
Proof.
  intros HcS Hreg. split.
  - intros e this' h' Hrun.
    apply Initialize_inv in Hrun as [_ Hexit].
    inversion Hexit as
      [ | e' ? ? Hval | e' h1 ? ? Hval Hcg
      | e' g h1 h2 h3 ? ? ? Hval Hcg Hcid Hfree | | ]; subst.
    + unfold validate_targets in Hval. by rewrite Hreg in Hval.
    + apply ConstructGradients_post in Hcg as [_ [-> | [-> | ->]]]; done.
    + apply ConstructInputData_post in Hcid as (_ & _ & _ & _ & Hg).
      apply gave_up_kind in Hg as [-> | [-> | [-> | ->]]]; done.
  - intros aTargetData' Hsame. unfold Initialize, bind. rewrite Hreg.
    destruct (EBM_ASSERT _ h) as [|u1 h1]; [done|].
    destruct (EBM_ASSERT _ h1) as [|u2 h2]; [done|].
    destruct (EBM_ASSERT _ h2) as [|u3 h3]; [done|].
    destruct (negb (cSamples =? 0)); [|done].
    destruct (EBM_ASSERT _ h3) as [|u4 h4]; [done|].
    unfold ret at 1 6.
    by rewrite (ConstructGradients_targets _ _ _ _ _ _ Hsame).
Qed.

(** C4. Classification target validation: with [cSamples > 0] and a
    classification descriptor, [K] being [countTargetClasses], [Initialize]
    takes the targets in order and returns [true] at the first one that is
    negative ([NegativeLabel]), not representable in the storage type or
    as an index ([LabelOverflow]), or not below [K] ([LabelOutOfRange]),
    with the object and the heap untouched (both buffers stay empty and
    nothing was allocated); in particular a target [v >= K] anywhere among
    the [cSamples] targets makes [Initialize] return [true] with one of
    these errors. *)
Theorem Initialize_validates_targets
    this cFeatureAtomics aFeatureAtomics cSamples aBinnedData aTargetData
    aPredictorScores d h :
  initial this -> 0 < cSamples -> d <> 0 -> IsClassification d = true ->
  let K := to_size_t d in
  (forall k v,
     (k < Z.to_nat cSamples)%nat -> aTargetData !! k = Some v ->
     (forall j w, (j < k)%nat -> aTargetData !! j = Some w ->
                  0 <= w /\ w <= STORAGE_MAX /\ w <= SIZE_MAX /\ w < K) ->
     let fails e :=
       Initialize this cFeatureAtomics aFeatureAtomics cSamples aBinnedData
         aTargetData aPredictorScores d h = Returns (Some e, this) h in
     (v < 0 -> fails NegativeLabel) /\
     (0 <= v -> STORAGE_MAX < v \/ SIZE_MAX < v -> fails LabelOverflow) /\
     (0 <= v -> v <= STORAGE_MAX -> v <= SIZE_MAX -> K <= v ->
      fails LabelOutOfRange)) /\
  (forall k v,
     (k < Z.to_nat cSamples)%nat -> aTargetData !! k = Some v -> K <= v ->
     exists e,
       Initialize this cFeatureAtomics aFeatureAtomics cSamples aBinnedData
         aTargetData aPredictorScores d h = Returns (Some e, this) h /\
       returns_true (Some e) = true /\
       (e = NegativeLabel \/ e = LabelOverflow \/ e = LabelOutOfRange)).
Proof.
  intros Hinit HcS Hd Hclass K.
  assert (Hstop : forall k v,
    (k < Z.to_nat cSamples)%nat -> aTargetData !! k = Some v ->
    label_error K v <> None ->
    exists e k' v',
      Initialize this cFeatureAtomics aFeatureAtomics cSamples aBinnedData
        aTargetData aPredictorScores d h = Returns (Some e, this) h /\
      (k' <= k)%nat /\ aTargetData !! k' = Some v' /\
      label_error K v' = Some e /\
      forall j, (j < k')%nat ->
      exists w, aTargetData !! j = Some w /\ valid_label K w).
  { intros k v Hk Hv Hbad.
    destruct (Initialize_targets_rejects aTargetData K
                (Init.Nat.pred (Z.to_nat cSamples)) 0 h k v)
      as (e & k' & v' & Hrun & Hk' & Hv' & He & Hbefore); [lia | done | done |].
    exists e, k', v'. split.
    - rewrite Initialize_run by (done || lia).
      unfold validate_targets. fold K. by rewrite Hclass, Hrun.
    - split; [lia|]. do 2 (split; [done|]).
      intros j Hj. apply Hbefore. lia. }
  split.
  - intros k v Hk Hv Hbefore fails.
    assert (Hfirst : forall e, label_error K v = Some e -> fails e).
    { intros e He.
      destruct (Hstop k v Hk Hv) as (e' & k' & v' & Hrun & Hk' & Hv' & He' & _);
        [congruence|].
      destruct (decide (k' = k)) as [->|Hne].
      - rewrite Hv in Hv'. injection Hv' as <-. congruence.
      - assert (valid_label K v') as Hok by (apply (Hbefore k'); [lia | done]).
        apply label_error_None in Hok. congruence. }
    repeat split; intros; apply Hfirst; unfold label_error;
      repeat case_decide; try done; lia.
  - intros k v Hk Hv HK.
    destruct (Hstop k v Hk Hv) as (e & k' & v' & Hrun & _ & _ & He & _).
    { intros Hnone. apply label_error_None in Hnone as (_ & _ & _ & ?). lia. }
    exists e. split; [done|]. split; [done|]. by eapply label_error_kind.
Qed.

(** C9. A failure of the external gradient initialization is contained:
    when the targets pass (or are not checked), the size does not overflow
    and the allocator grants the gradient buffer, but [InitializeGradients]
    returns [true] on it, then [ConstructGradients] frees that buffer and
    returns [nullptr] with [GradientInitFailed], and [Initialize] returns
    [true] with the object unchanged; the live heap is the one before the
    call, one allocation having been asked for. *)
Theorem Initialize_contains_gradient_failure
    this cFeatureAtomics aFeatureAtomics cSamples aBinnedData aTargetData
    aPredictorScores d h :
  initial this -> 0 < cSamples -> d <> 0 -> 1 <= GetVectorLength d ->
  targets_pass cSamples aTargetData d ->
  cSamples * GetVectorLength d <= SIZE_MAX ->
  malloc_succeeds (calls h) (cSamples * GetVectorLength d) = true ->
  fst (InitializeGradients d cSamples aTargetData aPredictorScores
         (replicate (Z.to_nat (cSamples * GetVectorLength d)) None)) = true ->
  let h' := {| live := live h; calls := S (calls h) |} in
  ConstructGradients cSamples aTargetData aPredictorScores d h =
    Returns (inl GradientInitFailed) h' /\
  Initialize this cFeatureAtomics aFeatureAtomics cSamples aBinnedData
    aTargetData aPredictorScores d h =
    Returns (Some GradientInitFailed, this) h'.
Proof.
  intros Hinit HcS Hd Hvl Hpass Hfits Hgrant Hfail h'.
  assert (Hcg : ConstructGradients cSamples aTargetData aPredictorScores d h =
                Returns (inl GradientInitFailed) h').
  { rewrite ConstructGradients_spec by (done || lia). simpl.
    case_decide; [lia|]. by rewrite Hgrant, Hfail. }
  split; [done|].
  rewrite Initialize_run by (done || lia).
  by rewrite validate_targets_pass, Hcg.
Qed.

(** C6, as amended. The overflow check comes before the allocation: with
    [cSamples > 0] and [cSamples * cVectorLength] not fitting [size_t],
    [ConstructGradients] returns [nullptr] with [SizeOverflow] on the heap
    it was given, whatever the targets.  Whatever [Initialize] returns is
    [true], with the object and the heap exactly as before: no allocation
    was asked for.  The error is [SizeOverflow] when the targets pass
    validation (or the descriptor is a regression, which has none), and
    otherwise the error of the first target that does not pass.
    [Initialize] does return when the targets are in the array. *)
Theorem Initialize_size_overflow
    this cFeatureAtomics aFeatureAtomics cSamples aBinnedData aTargetData
    aPredictorScores d h :
  initial this -> 0 < cSamples -> d <> 0 -> 1 <= GetVectorLength d ->
  SIZE_MAX < cSamples * GetVectorLength d ->
  ConstructGradients cSamples aTargetData aPredictorScores d h =
    Returns (inl SizeOverflow) h /\
  (forall r this' h',
     Initialize this cFeatureAtomics aFeatureAtomics cSamples aBinnedData
       aTargetData aPredictorScores d h = Returns (r, this') h' ->
     this' = this /\ h' = h /\
     ((r = Some SizeOverflow /\ targets_pass cSamples aTargetData d) \/
      exists e k v,
        r = Some e /\ IsClassification d = true /\
        (k < Z.to_nat cSamples)%nat /\ aTargetData !! k = Some v /\
        label_error (to_size_t d) v = Some e /\
        forall j, (j < k)%nat ->
        exists w, aTargetData !! j = Some w /\ valid_label (to_size_t d) w)) /\
  ((IsClassification d = true ->
    forall i, (i < Z.to_nat cSamples)%nat -> is_Some (aTargetData !! i)) ->
   exists e,
     Initialize this cFeatureAtomics aFeatureAtomics cSamples aBinnedData
       aTargetData aPredictorScores d h = Returns (Some e, this) h) /\
  (targets_pass cSamples aTargetData d ->
   Initialize this cFeatureAtomics aFeatureAtomics cSamples aBinnedData
     aTargetData aPredictorScores d h = Returns (Some SizeOverflow, this) h).
Proof.
  intros Hinit HcS Hd Hvl Hover.
  assert (Hcg : forall h0,
            ConstructGradients cSamples aTargetData aPredictorScores d h0 =
            Returns (inl SizeOverflow) h0).
  { intros h0. rewrite ConstructGradients_spec by (done || lia). simpl.
    by case_decide. }
  split; [apply Hcg|]. split; [|split].
  - intros r this' h' Hrun. apply Initialize_inv in Hrun as [_ Hexit].
    inversion Hexit as
      [ | e ? ? Hval | e h1 ? ? Hval Hg | e g h1 h2 h3 ? ? ? Hval Hg
      | g outer h1 h2 ? ? ? Hval Hg | g h1 ? ? ? Hval Hg ]; subst;
      try lia; try (rewrite Hcg in Hg; discriminate).
    + do 2 (split; [done|]). right.
      unfold validate_targets in Hval.
      destruct (IsClassification d) eqn:Hclass; [|discriminate].
      apply Initialize_targets_post in Hval
        as [_ (k & v & Hk & Hv & He & Hbefore)].
      exists e, k, v. repeat split; try done; [lia|].
      intros j Hj. apply Hbefore. lia.
    + rewrite Hcg in Hg. injection Hg as <- <-.
      do 2 (split; [done|]). left. split; [done|].
      intros Hclass i Hi. unfold validate_targets in Hval.
      rewrite Hclass in Hval.
      apply Initialize_targets_post in Hval as [_ Hall]. apply Hall. lia.
  - intros Hin. rewrite Initialize_run by (done || lia).
    unfold validate_targets.
    destruct (IsClassification d) eqn:Hclass.
    + destruct (Initialize_targets_total aTargetData (to_size_t d)
                  (Init.Nat.pred (Z.to_nat cSamples)) 0%nat h) as [r ->].
      { intros j Hj. apply Hin; [done | lia]. }
      destruct r as [e|]; [by eauto|]. rewrite Hcg. by eauto.
    + unfold ret. rewrite Hcg. by eauto.
  - intros Hpass. rewrite Initialize_run by (done || lia).
    by rewrite validate_targets_pass, Hcg.
Qed.

(** C2. Rollback in [ConstructInputData]: whenever it returns [nullptr]
    — the allocator refused the outer block or an inner block, or a value
    of some column did not pass its checks — the live heap is the one it
    was called with: every inner block allocated so far, the one being
    filled included, and the outer block have been freed.  On arrays that
    hold every column the function does return: the code at [free_all]
    reads only cells that were written and frees only live blocks. *)
Theorem ConstructInputData_rolls_back
    cFeatures aFeatureAtomics cSamples aBinnedData h :
  (forall e h',
     ConstructInputData cFeatures aFeatureAtomics cSamples aBinnedData h =
       Returns (inl e) h' ->
     live h' = live h /\
     gave_up aFeatureAtomics (Z.to_nat cFeatures) cSamples aBinnedData e) /\
  (0 < cFeatures -> 0 < cSamples ->
   columns_in_bounds (Z.to_nat cFeatures) aFeatureAtomics cSamples aBinnedData ->
   exists r h',
     ConstructInputData cFeatures aFeatureAtomics cSamples aBinnedData h =
       Returns r h').
Proof.
  split.
  - intros e h' Hrun. by apply ConstructInputData_post in Hrun as (_ & _ & _ & ?).
  - apply ConstructInputData_total.
Qed.

(** What a successful [Initialize] with samples and features leaves
    behind. *)
Lemma Initialize_commit_layout
    this cFeatureAtomics aFeatureAtomics cSamples aBinnedData aTargetData
    aPredictorScores d h this' h' :
  0 < cSamples -> cFeatureAtomics <> 0 ->
  Initialize this cFeatureAtomics aFeatureAtomics cSamples aBinnedData
    aTargetData aPredictorScores d h = Returns (None, this') h' ->
  exists aGradients aaInputData,
    this' = {| m_aGradients := Some aGradients;
               m_aaInputData := Some aaInputData;
               m_cSamples := cSamples;
               m_cFeatureAtomics := cFeatureAtomics |} /\
    live h' !! aGradients =
      Some (GradientBlock
              (snd (InitializeGradients d cSamples aTargetData aPredictorScores
                      (replicate (Z.to_nat (cSamples * GetVectorLength d)) None)))) /\
    binned_columns cFeatureAtomics aFeatureAtomics cSamples aBinnedData
      aaInputData h'.
Proof.
  intros HcS HcF Hrun.
  apply Initialize_inv in Hrun as [_ Hexit].
  inversion Hexit as
    [ | | | | g outer h1 h2 ? ? ? Hval Hcg Hcid | g h1 ? ? ? Hval Hcg ]; subst;
    try lia; try done.
  exists g, outer. split; [done|].
  apply ConstructGradients_post in Hcg as (Hfresh & _ & Hl1).
  apply ConstructInputData_post in Hcid
    as (_ & _ & _ & Hcols & ps & _ & Hnew & Hframe).
  split; [|done].
  rewrite Hframe, Hl1; [apply lookup_insert_eq|].
  intros Hin. apply Hnew in Hin. by rewrite Hl1, lookup_insert_eq in Hin.
Qed.

Lemma list_of_three {A} (l : list A) a b c :
  length l = 3%nat -> l !! 0%nat = Some a -> l !! 1%nat = Some b ->
  l !! 2%nat = Some c -> l = [a; b; c].
Proof.
  destruct l as [|x [|y [|z [|? ?]]]]; try done. simpl.
  by intros _ [= ->] [= ->] [= ->].
Qed.

Lemma list_of_two {A} (l : list A) a b :
  length l = 2%nat -> l !! 0%nat = Some a -> l !! 1%nat = Some b -> l = [a; b].
Proof.
  destruct l as [|x [|y [|? ?]]]; try done. simpl.
  by intros _ [= ->] [= ->].
Qed.

(** C5. What a successful [Initialize] commits: with [cSamples > 0] and
    [cFeatureAtomics > 0], and every feature's block starting at an index
    [size_t] can hold, the object points to a gradient block holding what
    [InitializeGradients] left in it and to an outer block of
    [cFeatureAtomics] pointers; the block for feature [j] has [cSamples]
    cells, and cell [i] holds the raw value at
    [aBinnedData[index * cSamples + i]], [index] being the feature's
    [GetIndexFeatureAtomicData()], unchanged by the narrowing cast and
    within [0, bin count).  In particular three samples, two features with
    bin counts 2 and 3, raw bins 0,1,1, 2,0,2, two classes, targets 0,1,0
    and vector length 1 give success, the columns [0,1,1] and [2,0,2], and
    a gradient block that was handed to [InitializeGradients] with three
    cells. *)
Theorem Initialize_commits_columns :
  (forall this cFeatureAtomics aFeatureAtomics cSamples aBinnedData
          aTargetData aPredictorScores d h this' h',
     0 < cSamples -> 0 < cFeatureAtomics ->
     (forall j f, (j < Z.to_nat cFeatureAtomics)%nat ->
                  aFeatureAtomics !! j = Some f ->
                  0 <= GetIndexFeatureAtomicData f /\
                  GetIndexFeatureAtomicData f * cSamples <= SIZE_MAX) ->
     Initialize this cFeatureAtomics aFeatureAtomics cSamples aBinnedData
       aTargetData aPredictorScores d h = Returns (None, this') h' ->
     exists aGradients aaInputData slots,
       this' = {| m_aGradients := Some aGradients;
                  m_aaInputData := Some aaInputData;
                  m_cSamples := cSamples;
                  m_cFeatureAtomics := cFeatureAtomics |} /\
       live h' !! aGradients =
         Some (GradientBlock
                 (snd (InitializeGradients d cSamples aTargetData
                         aPredictorScores
                         (replicate (Z.to_nat (cSamples * GetVectorLength d))
                            None)))) /\
       live h' !! aaInputData = Some (PointerBlock slots) /\
       length slots = Z.to_nat cFeatureAtomics /\
       forall j, (j < Z.to_nat cFeatureAtomics)%nat ->
       exists p f cells,
         slots !! j = Some (Some p) /\ aFeatureAtomics !! j = Some f /\
         live h' !! p = Some (StorageBlock cells) /\
         length cells = Z.to_nat cSamples /\
         forall i, (i < Z.to_nat cSamples)%nat ->
         exists v,
           aBinnedData !!
             Z.to_nat (GetIndexFeatureAtomicData f * cSamples + Z.of_nat i) =
             Some v /\
           cells !! i = Some (Some v) /\ to_storage v = v /\
           0 <= v < GetCountBins f) /\
  (forall this aPredictorScores h,
     initial this ->
     IsClassification 2 = true -> GetVectorLength 2 = 1 ->
     2 <= STORAGE_MAX -> 3 <= SIZE_MAX ->
     (forall n c, malloc_succeeds n c = true) ->
     fst (InitializeGradients 2 3 [0; 1; 0] aPredictorScores
            (replicate 3 None)) = false ->
     exists aGradients aaInputData p0 p1 h',
       Initialize this 2
         [ {| m_cBins := 2; m_iFeatureAtomicData := 0 |};
           {| m_cBins := 3; m_iFeatureAtomicData := 1 |} ]
         3 [0; 1; 1; 2; 0; 2] [0; 1; 0] aPredictorScores 2 h =
       Returns (None,
                {| m_aGradients := Some aGradients;
                   m_aaInputData := Some aaInputData;
                   m_cSamples := 3; m_cFeatureAtomics := 2 |}) h' /\
       live h' !! aGradients =
         Some (GradientBlock
                 (snd (InitializeGradients 2 3 [0; 1; 0] aPredictorScores
                         (replicate 3 None)))) /\
       live h' !! aaInputData = Some (PointerBlock [Some p0; Some p1]) /\
       live h' !! p0 = Some (StorageBlock [Some 0; Some 1; Some 1]) /\
       live h' !! p1 = Some (StorageBlock [Some 2; Some 0; Some 2])).
Proof.
  split.
  - intros this cFeatureAtomics aFeatureAtomics cSamples aBinnedData
      aTargetData aPredictorScores d h this' h' HcS HcF Haddr Hrun.
    apply Initialize_commit_layout in Hrun
      as (g & outer & -> & Hg & slots & Ho & Hn & Hcols); [|done|lia].
    exists g, outer, slots. do 4 (split; [done|]).
    intros j Hj.
    destruct (Hcols j Hj) as (p & f & cells & Hp & Hf & Hb & Hlen & Hcells).
    exists p, f, cells. do 4 (split; [done|]).
    intros i Hi. destruct (Hcells i Hi) as (v & Hv & (? & ? & ? & ?) & Hc).
    destruct (Haddr j f Hj Hf) as [Hlo Hhi].
    exists v. unfold raw_bin, column_start in Hv.
    rewrite to_size_t_id in Hv by nia.
    replace (Z.to_nat (GetIndexFeatureAtomicData f * cSamples + Z.of_nat i))
      with (Z.to_nat (GetIndexFeatureAtomicData f * cSamples) + i)%nat by nia.
    split; [done|]. split; [done|]. split; [by apply to_storage_id|].
    unfold GetCountBins. lia.
  - intros this aPredictorScores h Hinit Hclass Hvl Hsto Hsize Hgrant Hinitg.
    set (fs := [ {| m_cBins := 2; m_iFeatureAtomicData := 0 |};
                 {| m_cBins := 3; m_iFeatureAtomicData := 1 |} ]).
    set (bins := [0; 1; 1; 2; 0; 2]).
    assert (Hpass : targets_pass 3 [0; 1; 0] 2).
    { intros _ i Hi. rewrite to_size_t_id by lia. unfold valid_label.
      destruct i as [|[|[|i]]]; simpl; [| | |lia]; eexists; (split; [done|]); lia. }
    assert (Hcol0 : column_start {| m_cBins := 2; m_iFeatureAtomicData := 0 |} 3 = 0%nat)
      by (unfold column_start; simpl; rewrite to_size_t_id; lia).
    assert (Hcol1 : column_start {| m_cBins := 3; m_iFeatureAtomicData := 1 |} 3 = 3%nat)
      by (unfold column_start; simpl; rewrite to_size_t_id; lia).
    assert (Hcells : forall j f i, fs !! j = Some f -> (i < 3)%nat ->
      exists v, raw_bin bins f 3 i = Some v /\ valid_bin f v).
    { intros j f i Hf Hi. unfold raw_bin, valid_bin.
      destruct j as [|[|j]]; simpl in Hf; [| |done]; injection Hf as <-;
        rewrite ?Hcol0, ?Hcol1;
        destruct i as [|[|[|i]]]; simpl; [| | |lia| | | |lia];
        eexists; (split; [done|]); lia. }
    rewrite Initialize_run by (done || lia).
    rewrite validate_targets_pass by (done || lia).
    rewrite ConstructGradients_spec by lia. simpl. rewrite Hvl. simpl.
    case_decide; [lia|]. simpl in Hinitg. rewrite Hgrant, Hinitg.
    set (g := fresh (dom (live h))).
    set (h1 := {| live := _; calls := S (calls h) |}).
    destruct (ConstructInputData_total 2 fs 3 bins h1) as (r & h2 & Hrun);
      [lia | lia | |].
    { intros j Hj. destruct (lookup_lt_is_Some_2 fs j) as [f Hf]; [simpl; lia|].
      exists f. split; [done|]. intros i Hi.
      destruct (Hcells j f i Hf) as (v & -> & _); [lia | done]. }
    rewrite Hrun.
    pose proof (ConstructInputData_post _ _ _ _ _ _ _ Hrun) as (_ & _ & _ & Hpost).
    destruct r as [e|outer].
    { destruct Hpost as [_ [[_ (n & c & Hrefused)]|(j & f & i & v & _ & Hf & Hi & Hv & He)]].
      - by rewrite Hgrant in Hrefused.
      - destruct (Hcells j f i Hf) as (v' & Hv' & Hok); [lia|].
        rewrite Hv in Hv'. injection Hv' as <-.
        apply bin_error_None in Hok. congruence. }
    destruct Hpost as [(slots & Ho & Hn & Hcols) (ps & _ & Hnew & Hframe)].
    destruct (Hcols 0%nat) as (p0 & f0 & c0 & Hs0 & Hf0 & Hb0 & Hl0 & Hc0); [lia|].
    destruct (Hcols 1%nat) as (p1 & f1 & c1 & Hs1 & Hf1 & Hb1 & Hl1 & Hc1); [lia|].
    injection Hf0 as <-. injection Hf1 as <-.
    exists g, outer, p0, p1, h2. split; [done|]. split.
    { rewrite Hframe; [apply lookup_insert_eq|].
      intros Hin. apply Hnew in Hin. simpl in Hin.
      by rewrite lookup_insert_eq in Hin. }
    split. { rewrite Ho. do 2 f_equal. by apply list_of_two. }
    assert (Hread : forall f (cells : list (option Z)),
      (forall i, (i < Z.to_nat 3)%nat ->
         exists v, raw_bin bins f 3 i = Some v /\ valid_bin f v /\
                   cells !! i = Some (Some v)) ->
      forall i v, (i < 3)%nat -> raw_bin bins f 3 i = Some v ->
      cells !! i = Some (Some v)).
    { intros f cells Hall i v Hi Hv.
      destruct (Hall i) as (v' & Hv' & _ & Hc); [lia|]. congruence. }
    split.
    + rewrite Hb0. do 2 f_equal.
      apply list_of_three; [done | | |];
        apply (Hread _ _ Hc0); try lia; unfold raw_bin; by rewrite Hcol0.
    + rewrite Hb1. do 2 f_equal.
      apply list_of_three; [done | | |];
        apply (Hread _ _ Hc1); try lia; unfold raw_bin; by rewrite Hcol1.
Qed.

(** * Beyond the claims *)

(** ** What the loops went through *)

(** The inner loop, whatever the heap: it stops at the first sample that
    does not pass, with that sample's error, and asks for no allocation. *)
Lemma ConstructInputData_samples_trace f aBinnedData from p todo :
  forall i h r h',
  ConstructInputData_samples todo f aBinnedData from p i h = Returns r h' ->
  calls h' = calls h /\
  match r with
  | None =>
      forall j, (i <= j <= i + todo)%nat ->
      exists v, aBinnedData !! (from + j)%nat = Some v /\ valid_bin f v
  | Some e =>
      exists k v, (i <= k <= i + todo)%nat /\
        aBinnedData !! (from + k)%nat = Some v /\ bin_error f v = Some e /\
        forall j, (i <= j < k)%nat ->
        exists w, aBinnedData !! (from + j)%nat = Some w /\ valid_bin f w
  end.
Proof.
  induction todo as [|todo IH]; intros i h r h';
    rewrite ConstructInputData_samples_step;
    destruct (aBinnedData !! (from + i)%nat) as [v|] eqn:Hv; try done;
    destruct (bin_error f v) as [e|] eqn:Hchk.
  1,3: intros [= <- <-]; split; [done|]; exists i, v;
       repeat split; try done; try lia; intros j Hj; lia.
  - intros Hrun. apply bind_Returns in Hrun as (u & h1 & Hst & Hrun).
    apply store_storage_Returns in Hst as (cells & _ & _ & _ & Hc).
    unfold ret in Hrun. injection Hrun as <- <-. split; [done|].
    intros j Hj. assert (j = i) as -> by lia. exists v.
    split; [done|]. by apply bin_error_None.
  - intros Hrun. apply bind_Returns in Hrun as (u & h1 & Hst & Hrun).
    apply store_storage_Returns in Hst as (cells & _ & _ & _ & Hc).
    apply IH in Hrun as [Hc' Hr]. split; [congruence|].
    destruct r as [e|].
    + destruct Hr as (k & w & Hk & Hw & He & Hbefore).
      exists k, w. repeat split; try done; try lia.
      intros j Hj. destruct (decide (j = i)) as [->|].
      * exists v. split; [done|]. by apply bin_error_None.
      * apply Hbefore. lia.
    + intros j Hj. destruct (decide (j = i)) as [->|].
      * exists v. split; [done|]. by apply bin_error_None.
      * apply Hr. lia.
Qed.

(** The outer loop, whatever the heap: the number of allocations it asked
    for, the columns it accepted, and why it stopped. *)
Lemma ConstructInputData_features_trace
    aFeatureAtomics cSamples aBinnedData outer todo :
  1 <= cSamples ->
  forall iFeature h r h',
  ConstructInputData_features todo aFeatureAtomics cSamples aBinnedData
    outer iFeature h = Returns r h' ->
  match r with
  | None =>
      calls h' = (calls h + S todo)%nat /\
      forall j, (iFeature <= j <= iFeature + todo)%nat ->
      exists f, aFeatureAtomics !! j = Some f /\
                column_valid aBinnedData cSamples f
  | Some (e, k) =>
      exists j, (iFeature <= j <= iFeature + todo)%nat /\
        calls h' = (calls h + S (j - iFeature))%nat /\
        (forall j', (iFeature <= j' < j)%nat ->
           exists f, aFeatureAtomics !! j' = Some f /\
                     column_valid aBinnedData cSamples f) /\
        ((e = AllocationFailure /\ k = j /\
          malloc_succeeds (Init.Nat.pred (calls h')) cSamples = false) \/
         (k = S j /\
          exists f i, aFeatureAtomics !! j = Some f /\
                      first_bad aBinnedData cSamples f i e))
  end.
Proof.
  intros Hsamples.
  induction todo as [|todo IH]; intros iFeature h r h';
    rewrite ConstructInputData_features_unfold; intros Hrun;
    apply bind_Returns in Hrun as (pInputDataTo & h1 & Hmalloc & Hrun);
    apply EbmMalloc_Returns in Hmalloc as [Hc1 Hmalloc];
    (destruct pInputDataTo as [p|];
     [|destruct Hmalloc as [Hrefused _]; unfold ret in Hrun;
       injection Hrun as <- <-; exists iFeature;
       split; [lia|]; split; [lia|]; split; [intros j' Hj'; lia|];
       left; rewrite Hc1; done]);
    apply bind_Returns in Hrun as (u & h2 & Hst & Hrun);
    apply store_pointer_Returns in Hst as (slots & _ & _ & _ & Hc2);
    apply bind_Returns in Hrun as (f & h2' & Hf & Hrun);
    apply read_array_Returns in Hf as [Hf ->];
    apply bind_Returns in Hrun as (failed & h3 & Hloop & Hrun);
    apply ConstructInputData_samples_trace in Hloop as [Hc3 Hres];
    (destruct failed as [e|];
     [unfold ret in Hrun; injection Hrun as <- <-;
      destruct Hres as (i & v & Hi & Hv & He & Hbefore);
      exists iFeature; split; [lia|]; split; [lia|];
      split; [intros j' Hj'; lia|]; right; split; [done|];
      exists f, i; split; [done|]; split; [lia|];
      split; [by exists v|]; intros i' Hi'; apply Hbefore; lia
     |]);
    (assert (column_valid aBinnedData cSamples f) as Hcol
       by (intros i Hi; apply Hres; lia)).
  - unfold ret in Hrun. injection Hrun as <- <-. split; [lia|].
    intros j Hj. assert (j = iFeature) as -> by lia. by exists f.
  - apply IH in Hrun. destruct r as [[e k]|].
    + destruct Hrun as (j & Hj & Hcalls & Hbefore & Hwhy).
      exists j. split; [lia|]. split; [lia|]. split; [|done].
      intros j' Hj'. destruct (decide (j' = iFeature)) as [->|].
      * by exists f.
      * apply Hbefore. lia.
    + destruct Hrun as [Hcalls Hall]. split; [lia|].
      intros j Hj. destruct (decide (j = iFeature)) as [->|].
      * by exists f.
      * apply Hall. lia.
Qed.

Lemma ConstructInputData_free_all_calls outer k :
  forall h u h',
  ConstructInputData_free_all k outer h = Returns u h' -> calls h' = calls h.
Proof.
  induction k as [|k IH]; intros h u h' Hrun;
    cbn [ConstructInputData_free_all] in Hrun.
  - by apply free_Returns in Hrun as [? _].
  - apply bind_Returns in Hrun as (p & h1 & Hload & Hrun).
    apply load_pointer_Returns in Hload as [-> _].
    apply bind_Returns in Hrun as (u1 & h2 & Hfree & Hrun).
    apply free_Returns in Hfree as [Hc _].
    apply IH in Hrun. congruence.
Qed.

(** [ConstructInputData], whatever the heap: the allocations it asked for
    and why it stopped. *)
Lemma ConstructInputData_trace
    cFeatures aFeatureAtomics cSamples aBinnedData h r h' :
  ConstructInputData cFeatures aFeatureAtomics cSamples aBinnedData h =
    Returns r h' ->
  match r with
  | inr _ =>
      calls h' = (calls h + S (Z.to_nat cFeatures))%nat /\
      columns_valid (Z.to_nat cFeatures) aFeatureAtomics cSamples aBinnedData
  | inl e =>
      (e = AllocationFailure /\ calls h' = S (calls h) /\
       malloc_succeeds (calls h) cFeatures = false) \/
      exists j, (j < Z.to_nat cFeatures)%nat /\
        calls h' = (calls h + S (S j))%nat /\
        (forall j', (j' < j)%nat ->
           exists f, aFeatureAtomics !! j' = Some f /\
                     column_valid aBinnedData cSamples f) /\
        ((e = AllocationFailure /\
          malloc_succeeds (Init.Nat.pred (calls h')) cSamples = false) \/
         (exists f i, aFeatureAtomics !! j = Some f /\
                      first_bad aBinnedData cSamples f i e))
  end.
Proof.
  unfold ConstructInputData. intros Hrun.
  apply bind_Returns in Hrun as (u1 & h1 & Ha1 & Hrun).
  apply EBM_ASSERT_Returns in Ha1 as [HcF ->].
  apply bind_Returns in Hrun as (u2 & h2 & Ha2 & Hrun).
  apply EBM_ASSERT_Returns in Ha2 as [HcS ->].
  apply Z.ltb_lt in HcF, HcS.
  apply bind_Returns in Hrun as (aaInputDataTo & h1 & Hmalloc & Hrun).
  apply EbmMalloc_Returns in Hmalloc as [Hc1 Hmalloc].
  destruct aaInputDataTo as [outer|].
  2:{ destruct Hmalloc as [Hrefused Hl]. unfold ret in Hrun.
      injection Hrun as <- <-. by left. }
  apply bind_Returns in Hrun as (failed & h2 & Hloop & Hrun).
  apply ConstructInputData_features_trace in Hloop; [|lia].
  destruct failed as [[e k]|].
  - apply bind_Returns in Hrun as (u & h3 & Hfree & Hrun).
    apply ConstructInputData_free_all_calls in Hfree.
    unfold ret in Hrun. injection Hrun as <- <-.
    destruct Hloop as (j & Hj & Hcalls & Hbefore & Hwhy). right.
    exists j. split; [lia|]. split; [lia|].
    split; [intros j' Hj'; apply Hbefore; lia|].
    destruct Hwhy as [(-> & _ & Hrefused)|(_ & Hbad)]; [left | by right].
    split; [done|]. by rewrite Hfree.
  - unfold ret in Hrun. injection Hrun as <- <-.
    destruct Hloop as [Hcalls Hall]. split; [lia|].
    intros j Hj. apply Hall. lia.
Qed.

(** ** The range of a bin index *)





(** ** What a committed object owns *)

Lemma under_construction_base h0 h0' outer N ps h :
  live h0' = live h0 ->
  under_construction h0 outer N ps h -> under_construction h0' outer N ps h.
Proof.
  intros Hl [? ? ? ? ?]. split; try done; intros a Ha; rewrite Hl; auto.
Qed.

(** On success the construction is complete: one inner block per
    feature. *)
Lemma ConstructInputData_complete
    cFeatures aFeatureAtomics cSamples aBinnedData h outer h' :
  ConstructInputData cFeatures aFeatureAtomics cSamples aBinnedData h =
    Returns (inr outer) h' ->
  1 <= cFeatures /\
  exists ps, length ps = Z.to_nat cFeatures /\
             under_construction h outer (Z.to_nat cFeatures) ps h'.
Proof.
  unfold ConstructInputData. intros Hrun.
  apply bind_Returns in Hrun as (u1 & h1 & Ha1 & Hrun).
  apply EBM_ASSERT_Returns in Ha1 as [HcF ->].
  apply bind_Returns in Hrun as (u2 & h2 & Ha2 & Hrun).
  apply EBM_ASSERT_Returns in Ha2 as [HcS ->].
  apply Z.ltb_lt in HcF, HcS. split; [lia|].
  apply bind_Returns in Hrun as (aaInputDataTo & h1 & Hmalloc & Hrun).
  apply EbmMalloc_Returns in Hmalloc as [Hc1 Hmalloc].
  destruct aaInputDataTo as [outer'|]; [|done].
  destruct Hmalloc as (_ & Ho & Hl1).
  apply bind_Returns in Hrun as (failed & h2 & Hloop & Hrun).
  pose proof (under_construction_start _ _ _ _ Ho Hl1) as Huc.
  change 0%nat with (length (@nil addr)) in Hloop.
  eapply ConstructInputData_features_post in Hloop as [_ Hr];
    [| lia | exact Huc | by intros j p Hj].
  destruct failed as [[e k]|].
  { apply bind_Returns in Hrun as (u & h3 & _ & Hrun). done. }
  unfold ret in Hrun. injection Hrun as <- <-.
  destruct Hr as (ps & Hlen & Huc' & _). exists ps.
  split; [simpl in Hlen; lia | done].
Qed.

(** A successful [Initialize] with samples hands the new blocks over to
    the object. *)
Lemma Initialize_owns
    this cFeatureAtomics aFeatureAtomics cSamples aBinnedData aTargetData
    aPredictorScores d h this' h' :
  cSamples <> 0 ->
  Initialize this cFeatureAtomics aFeatureAtomics cSamples aBinnedData
    aTargetData aPredictorScores d h = Returns (None, this') h' ->
  owns h this' h'.
Proof.
  intros HcS Hrun.
  apply Initialize_inv in Hrun as [(_ & Hnull & _) Hexit].
  inversion Hexit as
    [ | | | | g outer h1 h2 ? ? ? Hval Hcg Hcid | g h1 ? ? ? Hval Hcg ]; subst;
    try done;
    apply ConstructGradients_post in Hcg as (Hfresh & _ & Hl1);
    eexists g, _; (split; [done|]); (split; [done|]); simpl.
  - apply ConstructInputData_complete in Hcid as (HcF & ps & Hlen & Huc).
    split; [done|]. exists ps. split; [done|].
    eapply under_construction_base; [|exact Huc]. simpl. by rewrite Hl1.
  - rewrite Hnull. exact Hl1.
Qed.

(** The do-while of [Destruct] frees the blocks the cells from [i] on
    point to, front to back, and nothing else. *)
Lemma Destruct_columns_spec outer slots qs :
  forall i h,
  qs <> [] ->
  live h !! outer = Some (PointerBlock slots) ->
  (forall j q, qs !! j = Some q -> slots !! (i + j)%nat = Some (Some q)) ->
  NoDup (outer :: qs) ->
  (forall q, q ∈ qs -> is_Some (live h !! q)) ->
  exists h',
    Destruct_columns (Init.Nat.pred (length qs)) outer i h = Returns tt h' /\
    calls h' = calls h /\
    (forall a, a ∈ qs -> live h' !! a = None) /\
    (forall a, a ∉ qs -> live h' !! a = live h !! a).
Proof.
  induction qs as [|q qs IH]; intros i h Hne Ho Hs Hnd Hlive; [done|].
  assert (slots !! i = Some (Some q)) as Hq
    by (rewrite <- (Nat.add_0_r i); by apply Hs).
  destruct (Hlive q) as [b Hb]; [set_solver|].
  apply NoDup_cons in Hnd as [Hout Hnd].
  apply NoDup_cons in Hnd as [Hqs Hnd].
  assert (outer <> q) by set_solver.
  set (h1 := {| live := delete q (live h); calls := calls h |}).
  assert (Hstep : forall k : M unit,
    bind (load_pointer outer i) (fun p => bind (free (Some p)) (fun _ => k)) h =
    k h1).
  { intros k. unfold bind, load_pointer, free. by rewrite Ho, Hq, Hb. }
  destruct qs as [|q' qs'].
  - exists h1. simpl. rewrite Hstep. split; [done|]. split; [done|].
    split; intros a Ha; simpl.
    + assert (a = q) as -> by set_solver. apply lookup_delete_eq.
    + apply lookup_delete_ne. set_solver.
  - destruct (IH (S i) h1) as (h' & Hrun & Hc & Hgone & Hrest).
    + done.
    + simpl. by rewrite lookup_delete_ne.
    + intros j p Hp. replace (S i + j)%nat with (i + S j)%nat by lia.
      by apply Hs.
    + apply NoDup_cons. split; [set_solver | done].
    + intros p Hp. simpl. rewrite lookup_delete_ne; [|set_solver].
      apply Hlive. set_solver.
    + exists h'. split.
      { change (Init.Nat.pred (length (q :: q' :: qs')))
          with (S (Init.Nat.pred (length (q' :: qs')))).
        cbn [Destruct_columns]. by rewrite Hstep. }
      split; [done|]. split; intros a Ha.
      * destruct (decide (a = q)) as [->|].
        -- rewrite Hrest by done. apply lookup_delete_eq.
        -- apply Hgone. set_solver.
      * rewrite Hrest by set_solver. simpl. apply lookup_delete_ne. set_solver.
Qed.

(** [Destruct] on an object that owns its blocks frees exactly them. *)
Lemma Destruct_owns h0 this h :
  owns h0 this h ->
  exists h',
    Destruct this h = Returns tt h' /\ live h' = live h0 /\
    calls h' = calls h /\
    forall a, m_aGradients this = Some a -> live h' !! a = None.
Proof.
  intros (g & b & Hg & Hfresh & Howns). simpl in Howns.
  unfold Destruct. rewrite Hg.
  destruct (m_aaInputData this) as [outer|].
  - destruct Howns as (HcF & ps & Hlen & Huc).
    pose proof Huc as [Hnd Hfr Hframe (slots & Ho & Hn & Hs) Hin].
    simpl in Hfr, Hframe.
    assert (g ∉ outer :: ps) as Hg'.
    { intros Hel. apply Hfr in Hel. by rewrite lookup_insert_eq in Hel. }
    assert (live h !! g = Some b) as Hgl
      by (rewrite Hframe by done; apply lookup_insert_eq).
    set (h1 := {| live := delete g (live h); calls := calls h |}).
    destruct (Destruct_columns_spec outer slots ps 0 h1)
      as (h2 & Hrun & Hc2 & Hgone & Hrest).
    + intros ->. simpl in Hlen. lia.
    + simpl. rewrite lookup_delete_ne; [done | set_solver].
    + intros j q Hq. by apply Hs.
    + done.
    + intros q Hq. simpl. rewrite lookup_delete_ne; [by apply Hin | set_solver].
    + apply NoDup_cons in Hnd as [Hout _].
      assert (live h2 !! outer = Some (PointerBlock slots)) as Ho2.
      { rewrite Hrest by done. simpl. rewrite lookup_delete_ne; [done | set_solver]. }
      eexists. split.
      { unfold bind at 1, free. rewrite Hgl. fold h1.
        rewrite (proj2 (Z.leb_le 1 _) HcF). simpl.
        unfold bind at 1, ret at 1. rewrite <- Hlen.
        unfold bind at 1. rewrite Hrun. unfold free. rewrite Ho2. done. }
      simpl. split; [|split; [by rewrite Hc2|]].
      * apply map_eq. intros a.
        destruct (decide (a = outer)) as [->|Hao].
        { rewrite lookup_delete_eq. symmetry.
          rewrite <- (lookup_insert_ne (live h0) g outer b) by set_solver.
          apply Hfr. set_solver. }
        rewrite lookup_delete_ne by done.
        destruct (decide (a ∈ ps)) as [Hel|Hnel].
        { rewrite Hgone by done. symmetry.
          rewrite <- (lookup_insert_ne (live h0) g a b) by set_solver.
          apply Hfr. set_solver. }
        rewrite Hrest by done. simpl.
        destruct (decide (a = g)) as [->|Hag].
        { by rewrite lookup_delete_eq. }
        rewrite lookup_delete_ne by done.
        rewrite Hframe by set_solver. by apply lookup_insert_ne.
      * intros a [= <-]. rewrite lookup_delete_ne by set_solver.
        rewrite Hrest by set_solver. simpl. apply lookup_delete_eq.
  - assert (live h !! g = Some b) as Hgl
      by (rewrite Howns; apply lookup_insert_eq).
    eexists. split.
    { unfold bind, free, ret. rewrite Hgl. done. }
    simpl. split; [|split; [done|]].
    + by rewrite Howns, delete_insert_eq, delete_id.
    + intros a [= <-]. apply lookup_delete_eq.
Qed.

(** The heap half of failure atomicity, for any sample count. *)
Lemma Initialize_failure_atomic_heap
    this cFeatureAtomics aFeatureAtomics cSamples aBinnedData aTargetData
    aPredictorScores d h e this' h' :
  Initialize this cFeatureAtomics aFeatureAtomics cSamples aBinnedData
    aTargetData aPredictorScores d h = Returns (Some e, this') h' ->
  live h' = live h.
Proof.
  intros Hrun.
  apply Initialize_inv in Hrun as [_ Hexit].
  inversion Hexit as
    [ | e' ? ? Hval | e' h1 ? ? Hval Hcg
    | e' g h1 h2 h3 ? ? ? Hval Hcg Hcid Hfree | | ]; subst.
  - done.
  - by apply ConstructGradients_post in Hcg as [Hl _].
  - apply ConstructGradients_post in Hcg as (Hfresh & _ & Hl1).
    apply ConstructInputData_post in Hcid as (_ & _ & _ & Hl2 & _).
    by eapply free_gradients_restores.
Qed.

(** ** Initialize and Destruct together *)

(** X1. [Destruct] undoes a successful [Initialize]: on the object and
    heap any successful call leaves (with or without samples, with or
    without features) [Destruct] returns, and the live heap is again the
    one [Initialize] was called with; it asks for no allocation. *)
Theorem Destruct_after_Initialize
    this cFeatureAtomics aFeatureAtomics cSamples aBinnedData aTargetData
    aPredictorScores d h this' h' :
  Initialize this cFeatureAtomics aFeatureAtomics cSamples aBinnedData
    aTargetData aPredictorScores d h = Returns (None, this') h' ->
  exists h'',
    Destruct this' h' = Returns tt h'' /\
    live h'' = live h /\ calls h'' = calls h'.
Proof.
  intros Hrun. destruct (decide (cSamples = 0)) as [->|HcS].
  - apply Initialize_inv in Hrun as [(Hg & Hi & _) Hexit].
    inversion Hexit; subst; try done.
    exists h'. split; [|done]. by apply Destruct_empty.
  - apply Initialize_owns in Hrun; [|done].
    destruct (Destruct_owns _ _ _ Hrun) as (h'' & ? & ? & ? & _).
    by exists h''.
Qed.

(** X2. [Destruct] does not reset the object: after a successful
    [Initialize] with samples, a second [Destruct] on the same object
    frees the gradient buffer again, which has no defined behaviour. *)
Theorem Destruct_twice_undefined
    this cFeatureAtomics aFeatureAtomics cSamples aBinnedData aTargetData
    aPredictorScores d h this' h' :
  0 < cSamples ->
  Initialize this cFeatureAtomics aFeatureAtomics cSamples aBinnedData
    aTargetData aPredictorScores d h = Returns (None, this') h' ->
  exists h'',
    Destruct this' h' = Returns tt h'' /\
    Destruct this' h'' = Undefined InvalidPointer.
Proof.
  intros HcS Hrun. apply Initialize_owns in Hrun; [|lia].
  destruct (Destruct_owns _ _ _ Hrun) as (h'' & Hfirst & _ & _ & Hgone).
  exists h''. split; [done|].
  destruct Hrun as (g & b & Hg & _).
  unfold Destruct, bind, free. by rewrite Hg, (Hgone g Hg).
Qed.

(** X3. The object after [Initialize], whatever it returned: the gradient
    pointer is set exactly when the sample count is not zero, and the
    pointer to the binned columns exactly when neither the sample count
    nor the feature count is zero; after success the two counts are the
    arguments. *)
Theorem Initialize_object_invariant
    this cFeatureAtomics aFeatureAtomics cSamples aBinnedData aTargetData
    aPredictorScores d h r this' h' :
  Initialize this cFeatureAtomics aFeatureAtomics cSamples aBinnedData
    aTargetData aPredictorScores d h = Returns (r, this') h' ->
  (m_aGradients this' <> nullptr <-> m_cSamples this' <> 0) /\
  (m_aaInputData this' <> nullptr <->
   m_cSamples this' <> 0 /\ m_cFeatureAtomics this' <> 0) /\
  (r = None ->
   m_cSamples this' = cSamples /\ m_cFeatureAtomics this' = cFeatureAtomics).
Proof.
  intros Hrun. apply Initialize_inv in Hrun as [(Hg & Hi & Hs) Hexit].
  inversion Hexit; subst; simpl; rewrite ?Hg, ?Hi, ?Hs;
    (split; [|split]); try done; try tauto; try (split; intros; done).
  all: split; [intros; done | intros [_ ?]; done].
Qed.

(** X4. [Initialize] leaves every block that was live before it as it
    was, whether it succeeds or fails. *)
Theorem Initialize_preserves_blocks
    this cFeatureAtomics aFeatureAtomics cSamples aBinnedData aTargetData
    aPredictorScores d h r this' h' :
  Initialize this cFeatureAtomics aFeatureAtomics cSamples aBinnedData
    aTargetData aPredictorScores d h = Returns (r, this') h' ->
  forall a b, live h !! a = Some b -> live h' !! a = Some b.
Proof.
  intros Hrun a b Ha.
  destruct r as [e|].
  { destruct (decide (cSamples = 0)) as [->|HcS].
    - apply Initialize_inv in Hrun as [_ Hexit]. inversion Hexit; subst; done.
    - apply Initialize_failure_atomic_heap in Hrun. by rewrite Hrun. }
  destruct (decide (cSamples = 0)) as [->|HcS].
  { apply Initialize_inv in Hrun as [_ Hexit]. inversion Hexit; subst; done. }
  apply Initialize_owns in Hrun as (g & blk & _ & Hfresh & Howns); [|done].
  simpl in Howns.
  assert (a <> g) by (intros ->; congruence).
  destruct (m_aaInputData this') as [outer|].
  - destruct Howns as (_ & ps & _ & [_ Hfr Hframe _ _]). simpl in Hfr, Hframe.
    rewrite Hframe; [by rewrite lookup_insert_ne|].
    intros Hel. apply Hfr in Hel. rewrite lookup_insert_ne in Hel by done.
    congruence.
  - rewrite Howns. simpl. by rewrite lookup_insert_ne.
Qed.

(** X5. The inner buffers do not alias: after a successful [Initialize]
    with samples and features, every cell of the outer block is written,
    and the gradient block, the outer block and the blocks the cells point
    to are pairwise distinct, live, and were not live before the call. *)
Theorem Initialize_buffers_distinct
    this cFeatureAtomics aFeatureAtomics cSamples aBinnedData aTargetData
    aPredictorScores d h this' h' :
  0 < cSamples -> cFeatureAtomics <> 0 ->
  Initialize this cFeatureAtomics aFeatureAtomics cSamples aBinnedData
    aTargetData aPredictorScores d h = Returns (None, this') h' ->
  exists aGradients aaInputData ps,
    m_aGradients this' = Some aGradients /\
    m_aaInputData this' = Some aaInputData /\
    length ps = Z.to_nat cFeatureAtomics /\
    live h' !! aaInputData = Some (PointerBlock (Some <$> ps)) /\
    NoDup (aGradients :: aaInputData :: ps) /\
    forall a, a ∈ aGradients :: aaInputData :: ps ->
              live h !! a = None /\ is_Some (live h' !! a).
Proof.
  intros HcS HcF Hrun.
  pose proof (Initialize_commit_layout _ _ _ _ _ _ _ _ _ _ _ HcS HcF Hrun)
    as (g0 & outer0 & -> & _).
  apply Initialize_owns in Hrun as (g & b & [= <-] & Hfresh & Howns); [|lia].
  simpl in Howns. destruct Howns as (_ & ps & Hlen & Huc).
  destruct Huc as [Hnd Hfr Hframe (slots & Ho & Hn & Hs) Hin].
  simpl in Hfr, Hframe.
  assert (g0 ∉ outer0 :: ps) as Hg.
  { intros Hel. apply Hfr in Hel. by rewrite lookup_insert_eq in Hel. }
  exists g0, outer0, ps. do 3 (split; [done|]). split.
  { rewrite Ho. do 2 f_equal. apply list_eq. intros j.
    rewrite list_lookup_fmap. destruct (ps !! j) as [q|] eqn:Hq.
    - by apply Hs.
    - apply lookup_ge_None in Hq. apply lookup_ge_None. lia. }
  split; [by apply NoDup_cons|].
  intros a Ha. apply elem_of_cons in Ha as [->|Ha].
  - split; [done|]. rewrite Hframe by done. rewrite lookup_insert_eq. eauto.
  - split.
    + specialize (Hfr a Ha). rewrite lookup_insert_ne in Hfr; [done|].
      intros <-. done.
    + apply elem_of_cons in Ha as [->|Ha]; [rewrite Ho; eauto | by apply Hin].
Qed.

Lemma validate_targets_None cSamples aTargetData d h h' :
  0 < cSamples ->
  validate_targets cSamples aTargetData d h = Returns None h' ->
  targets_pass cSamples aTargetData d.
Proof.
  intros HcS Hrun Hclass i Hi. unfold validate_targets in Hrun.
  rewrite Hclass in Hrun. apply Initialize_targets_post in Hrun as [_ Hall].
  apply Hall. lia.
Qed.

Lemma columns_valid_in_bounds n aFeatureAtomics cSamples aBinnedData :
  columns_valid n aFeatureAtomics cSamples aBinnedData ->
  columns_in_bounds n aFeatureAtomics cSamples aBinnedData.
Proof.
  intros Hv j Hj. destruct (Hv j Hj) as (f & Hf & Hcol).
  exists f. split; [done|]. intros i Hi.
  destruct (Hcol i Hi) as (v & -> & _). eauto.
Qed.

(** With every request granted, [ConstructInputData] succeeds on columns
    that are all valid. *)
Lemma ConstructInputData_accepts
    cFeatures aFeatureAtomics cSamples aBinnedData h :
  0 < cFeatures -> 0 < cSamples ->
  (forall n c, malloc_succeeds n c = true) ->
  columns_valid (Z.to_nat cFeatures) aFeatureAtomics cSamples aBinnedData ->
  exists outer h',
    ConstructInputData cFeatures aFeatureAtomics cSamples aBinnedData h =
      Returns (inr outer) h'.
Proof.
  intros HcF HcS Hgrant Hvalid.
  destruct (ConstructInputData_total cFeatures aFeatureAtomics cSamples
              aBinnedData h HcF HcS (columns_valid_in_bounds _ _ _ _ Hvalid))
    as ([e|outer] & h' & Hrun); [|by eauto].
  apply ConstructInputData_post in Hrun as Hpost.
  destruct Hpost as (_ & _ & _ & _ & [[_ (n & c & Hrefused)]|Hbad]).
  { by rewrite Hgrant in Hrefused. }
  destruct Hbad as (j & f & i & v & Hj & Hf & Hi & Hv & He).
  destruct (Hvalid j Hj) as (f' & Hf' & Hcol).
  rewrite Hf in Hf'. injection Hf' as <-.
  destruct (Hcol i Hi) as (v' & Hv' & Hok).
  rewrite Hv in Hv'. injection Hv' as <-.
  apply bin_error_None in Hok. congruence.
Qed.

(** X6. [Initialize] accepts exactly the valid inputs: from the initial
    object, with samples, the assertions on the descriptor holding and the
    allocator granting every request, it returns [false] if and only if
    the targets pass (classification only), [cSamples * cVectorLength]
    fits [size_t], [InitializeGradients] reports no error, and, when there
    are features, every value of every listed column is in the array and
    passes its checks. *)
Theorem Initialize_accepts_iff
    this cFeatureAtomics aFeatureAtomics cSamples aBinnedData aTargetData
    aPredictorScores d h :
  initial this -> 0 < cSamples -> 0 <= cFeatureAtomics ->
  d <> 0 -> 1 <= GetVectorLength d ->
  (forall n c, malloc_succeeds n c = true) ->
  (exists this' h',
     Initialize this cFeatureAtomics aFeatureAtomics cSamples aBinnedData
       aTargetData aPredictorScores d h = Returns (None, this') h') <->
  (targets_pass cSamples aTargetData d /\
   cSamples * GetVectorLength d <= SIZE_MAX /\
   fst (InitializeGradients d cSamples aTargetData aPredictorScores
          (replicate (Z.to_nat (cSamples * GetVectorLength d)) None)) = false /\
   columns_valid (Z.to_nat cFeatureAtomics) aFeatureAtomics cSamples
     aBinnedData).
Proof.
  intros Hinit HcS HcF Hd Hvl Hgrant. split.
  - intros (this' & h' & Hrun).
    apply Initialize_inv in Hrun as [_ Hexit].
    assert (Hcg : forall g h1,
      ConstructGradients cSamples aTargetData aPredictorScores d h =
        Returns (inr g) h1 ->
      cSamples * GetVectorLength d <= SIZE_MAX /\
      fst (InitializeGradients d cSamples aTargetData aPredictorScores
             (replicate (Z.to_nat (cSamples * GetVectorLength d)) None)) = false).
    { intros g h1 Hg. rewrite ConstructGradients_spec in Hg by (done || lia).
      simpl in Hg. case_decide; [done|]. split; [lia|].
      destruct (malloc_succeeds _ _); [|done]. by destruct (fst _). }
    inversion Hexit as
      [ | | | | g outer h1 h2 ? ? ? Hval Hg Hcid | g h1 ? ? ? Hval Hg ]; subst;
      try lia;
      (split; [by eapply validate_targets_None|]);
      destruct (Hcg _ _ Hg) as [? ?]; do 2 (split; [done|]).
    + by apply ConstructInputData_trace in Hcid as [_ ?].
    + intros j Hj. simpl in Hj. lia.
  - intros (Hpass & Hfits & Hok & Hvalid).
    rewrite Initialize_run by (done || lia).
    rewrite validate_targets_pass by done.
    rewrite ConstructGradients_spec by (done || lia). simpl.
    case_decide; [lia|]. rewrite Hgrant, Hok.
    case_decide; [by eauto|].
    edestruct ConstructInputData_accepts as (outer & h' & ->);
      [| exact HcS | exact Hgrant | exact Hvalid |]; [lia | by eauto].
Qed.

(** ** Order and cost *)

(** X7. [ConstructInputData] fails fast, in feature order and then sample
    order: when the allocator grants every request, the columns of the
    features before feature [j] are valid and sample [i] is the first of
    feature [j]'s column that does not pass, the function returns
    [nullptr] with the error of that sample's check, having asked for
    exactly [j + 2] allocations (the outer block and [j + 1] inner ones)
    and freed them all. *)
Theorem ConstructInputData_fails_fast
    cFeatures aFeatureAtomics cSamples aBinnedData h j f i e :
  0 < cFeatures -> 0 < cSamples ->
  (forall n c, malloc_succeeds n c = true) ->
  columns_in_bounds (Z.to_nat cFeatures) aFeatureAtomics cSamples aBinnedData ->
  (j < Z.to_nat cFeatures)%nat -> aFeatureAtomics !! j = Some f ->
  (forall j', (j' < j)%nat ->
     exists f', aFeatureAtomics !! j' = Some f' /\
                column_valid aBinnedData cSamples f') ->
  first_bad aBinnedData cSamples f i e ->
  exists h',
    ConstructInputData cFeatures aFeatureAtomics cSamples aBinnedData h =
      Returns (inl e) h' /\
    live h' = live h /\ calls h' = (calls h + (j + 2))%nat.
Proof.
  intros HcF HcS Hgrant Hin Hj Hf Hbefore (Hi & (v & Hv & He) & Hfirst).
  assert (Hnot : ~ column_valid aBinnedData cSamples f).
  { intros Hcol. destruct (Hcol i Hi) as (v' & Hv' & Hok).
    rewrite Hv in Hv'. injection Hv' as <-.
    apply bin_error_None in Hok. congruence. }
  destruct (ConstructInputData_total cFeatures aFeatureAtomics cSamples
              aBinnedData h HcF HcS Hin) as (r & h' & Hrun).
  pose proof (ConstructInputData_trace _ _ _ _ _ _ _ Hrun) as Htrace.
  destruct r as [e'|outer].
  2:{ destruct Htrace as [_ Hvalid].
      destruct (Hvalid j Hj) as (f' & Hf' & Hcol).
      rewrite Hf in Hf'. injection Hf' as <-. done. }
  pose proof (ConstructInputData_post _ _ _ _ _ _ _ Hrun) as (_ & _ & _ & Hl & _).
  destruct Htrace as [(_ & _ & Hrefused)
                     |(j0 & Hj0 & Hcalls & Hvalid0 & Hwhy)].
  { by rewrite Hgrant in Hrefused. }
  destruct Hwhy as [[_ Hrefused]|(f0 & i0 & Hf0 & Hi0 & (v0 & Hv0 & He0) & Hfirst0)].
  { by rewrite Hgrant in Hrefused. }
  assert (j0 = j) as ->.
  { destruct (Nat.lt_trichotomy j0 j) as [Hlt|[->|Hlt]]; [|done|].
    - destruct (Hbefore j0 Hlt) as (f' & Hf' & Hcol).
      rewrite Hf0 in Hf'. injection Hf' as <-.
      destruct (Hcol i0 Hi0) as (w & Hw & Hok).
      rewrite Hv0 in Hw. injection Hw as <-.
      apply bin_error_None in Hok. congruence.
    - destruct (Hvalid0 j Hlt) as (f' & Hf' & Hcol).
      rewrite Hf in Hf'. injection Hf' as <-. done. }
  rewrite Hf in Hf0. injection Hf0 as <-.
  assert (i0 = i) as ->.
  { destruct (Nat.lt_trichotomy i0 i) as [Hlt|[->|Hlt]]; [|done|].
    - destruct (Hfirst i0 Hlt) as (w & Hw & Hok).
      rewrite Hv0 in Hw. injection Hw as <-.
      apply bin_error_None in Hok. congruence.
    - destruct (Hfirst0 i Hlt) as (w & Hw & Hok).
      rewrite Hv in Hw. injection Hw as <-.
      apply bin_error_None in Hok. congruence. }
  rewrite Hv in Hv0. injection Hv0 as <-.
  assert (e' = e) as -> by congruence.
  exists h'. split; [done|]. split; [done | lia].
Qed.

(** X8. The cost of success in allocations: a successful [Initialize]
    asks for no allocation when there are no samples, for one (the
    gradient buffer) when there are samples but no features, and for
    [cFeatureAtomics + 2] otherwise (gradient buffer, outer block, one
    inner block per feature). *)
Theorem Initialize_allocation_count
    this cFeatureAtomics aFeatureAtomics cSamples aBinnedData aTargetData
    aPredictorScores d h this' h' :
  Initialize this cFeatureAtomics aFeatureAtomics cSamples aBinnedData
    aTargetData aPredictorScores d h = Returns (None, this') h' ->
  calls h' =
    (calls h +
     (if decide (cSamples = 0%Z) then 0
      else if decide (cFeatureAtomics = 0%Z) then 1
      else Z.to_nat cFeatureAtomics + 2))%nat.
Proof.
  intros Hrun. apply Initialize_inv in Hrun as [_ Hexit].
  inversion Hexit as
    [ | | | | g outer h1 h2 ? ? ? Hval Hg Hcid | g h1 ? ? ? Hval Hg ]; subst;
    repeat case_decide; try done; try lia;
    apply ConstructGradients_post in Hg as (_ & Hc1 & _).
  - apply ConstructInputData_trace in Hcid as [Hc2 _]. lia.
  - lia.
Qed.

(** X9. [Initialize] stops at the first refused allocation: when it
    returns [true] with [AllocationFailure], the last allocation it asked
    for is one the allocator refused. *)
Theorem Initialize_stops_at_refusal
    this cFeatureAtomics aFeatureAtomics cSamples aBinnedData aTargetData
    aPredictorScores d h this' h' :
  Initialize this cFeatureAtomics aFeatureAtomics cSamples aBinnedData
    aTargetData aPredictorScores d h =
    Returns (Some AllocationFailure, this') h' ->
  (calls h < calls h')%nat /\
  exists c, malloc_succeeds (Init.Nat.pred (calls h')) c = false.
Proof.
  intros Hrun. apply Initialize_inv in Hrun as [_ Hexit].
  inversion Hexit as
    [ | e' ? ? Hval | e' h1 HcS Hd Hval Hcg
    | e' g h1 h2 h3 ? ? ? Hval Hcg Hcid Hfree | | ]; subst.
  - unfold validate_targets in Hval. destruct (IsClassification d); [|done].
    apply Initialize_targets_post in Hval as (_ & k & v & _ & _ & He & _).
    by apply label_error_kind in He as [?|[?|?]].
  - pose proof (ConstructGradients_asserts _ _ _ _ _ _ _ Hcg) as (? & ? & ?).
    rewrite ConstructGradients_spec in Hcg by done. simpl in Hcg.
    case_decide; [done|].
    destruct (malloc_succeeds _ _) eqn:Hm; [by destruct (fst _)|].
    injection Hcg as <-. simpl. split; [lia | eauto].
  - apply ConstructGradients_post in Hcg as (_ & Hc1 & _).
    apply free_Returns in Hfree as [Hc3 _].
    apply ConstructInputData_trace in Hcid
      as [(_ & Hc2 & Hrefused)|(j & _ & Hc2 & _ & Hwhy)].
    + rewrite Hc3, Hc2. simpl. split; [lia | eauto].
    + split; [lia|]. rewrite Hc3.
      destruct Hwhy as [[_ Hrefused]|(f & i & _ & _ & (v & _ & He) & _)];
        [eauto|].
      by apply bin_error_kind in He as [?|[?|?]].
Qed.

(** X10. Without features the feature descriptors and the bin data are
    never looked at: with [cFeatureAtomics = 0] the outcome is the one on
    empty arrays, and a successful call with samples leaves
    [m_aaInputData] null and the live heap with one more block, the
    gradient buffer, than before. *)
Theorem Initialize_featureless
    this aFeatureAtomics cSamples aBinnedData aTargetData aPredictorScores
    d h :
  Initialize this 0 aFeatureAtomics cSamples aBinnedData aTargetData
    aPredictorScores d h =
  Initialize this 0 [] cSamples [] aTargetData aPredictorScores d h /\
  (forall this' h',
     0 < cSamples ->
     Initialize this 0 aFeatureAtomics cSamples aBinnedData aTargetData
       aPredictorScores d h = Returns (None, this') h' ->
     m_aaInputData this' = nullptr /\
     exists aGradients b,
       m_aGradients this' = Some aGradients /\
       live h !! aGradients = None /\
       live h' = <[aGradients := b]> (live h)).
Proof.
  split; [done|].
  intros this' h' HcS Hrun.
  apply Initialize_inv in Hrun as [(_ & Hnull & _) Hexit].
  inversion Hexit as
    [ | | | | g outer h1 h2 ? ? ? Hval Hg Hcid | g h1 ? ? ? Hval Hg ]; subst;
    try lia; try done.
  apply ConstructGradients_post in Hg as (Hfresh & _ & Hl).
  split; [done|]. by eexists g, _.
Qed.

(** ** What ConstructInputData reads *)

Lemma ConstructInputData_samples_agree f data1 data2 from p todo :
  forall i,
  (forall j, (i <= j <= i + todo)%nat ->
             data1 !! (from + j)%nat = data2 !! (from + j)%nat) ->
  forall h,
  ConstructInputData_samples todo f data1 from p i h =
  ConstructInputData_samples todo f data2 from p i h.
Proof.
  induction todo as [|todo IH]; intros i Hsame h;
    rewrite !ConstructInputData_samples_step;
    (rewrite (Hsame i) by lia);
    destruct (data2 !! (from + i)%nat) as [v|]; try done;
    destruct (bin_error f v); try done.
  unfold bind. destruct (store_storage p i v h) as [|u h1]; [done|].
  apply IH. intros j Hj. apply Hsame. lia.
Qed.

Lemma ConstructInputData_features_agree
    aFeatureAtomics cSamples data1 data2 outer todo :
  1 <= cSamples ->
  forall iFeature,
  (forall j f i,
     (iFeature <= j <= iFeature + todo)%nat -> aFeatureAtomics !! j = Some f ->
     (i < Z.to_nat cSamples)%nat ->
     raw_bin data1 f cSamples i = raw_bin data2 f cSamples i) ->
  forall h,
  ConstructInputData_features todo aFeatureAtomics cSamples data1 outer
    iFeature h =
  ConstructInputData_features todo aFeatureAtomics cSamples data2 outer
    iFeature h.
Proof.
  intros HcS.
  induction todo as [|todo IH]; intros iFeature Hsame h;
    rewrite (ConstructInputData_features_unfold _ _ _ data1),
      (ConstructInputData_features_unfold _ _ _ data2);
    unfold bind;
    (destruct (EbmMalloc StorageBlock cSamples h) as [|[p|] h1]; try done);
    (destruct (store_pointer outer iFeature p h1) as [|u h2]; try done);
    unfold read_array;
    (destruct (aFeatureAtomics !! iFeature) as [f|] eqn:Hf; try done);
    unfold ret;
    (rewrite (ConstructInputData_samples_agree f data1 data2)
       by (intros j Hj; apply (Hsame iFeature f j); [lia | done | lia]));
    (destruct (ConstructInputData_samples _ f data2 _ p 0 h2)
       as [|[e|] h3]; try done).
  apply IH. intros j f' i Hj Hf' Hi. apply (Hsame j); [lia | done | done].
Qed.

(** X11. [ConstructInputData] looks at the bin data only in the
    [cSamples] cells of each listed feature's column: two arrays that
    agree on those cells give the same outcome, whatever they hold (or
    lack) elsewhere. *)
Theorem ConstructInputData_reads_only_columns
    cFeatures aFeatureAtomics cSamples data1 data2 h :
  (forall j f i,
     (j < Z.to_nat cFeatures)%nat -> aFeatureAtomics !! j = Some f ->
     (i < Z.to_nat cSamples)%nat ->
     raw_bin data1 f cSamples i = raw_bin data2 f cSamples i) ->
  ConstructInputData cFeatures aFeatureAtomics cSamples data1 h =
  ConstructInputData cFeatures aFeatureAtomics cSamples data2 h.
Proof.
  intros Hsame. unfold ConstructInputData, bind.
  destruct (Z.ltb_spec 0 cFeatures) as [HcF|]; [|done].
  destruct (Z.ltb_spec 0 cSamples) as [HcS|]; [|done]. simpl.
  destruct (EbmMalloc PointerBlock cFeatures h) as [|[outer|] h1]; try done.
  rewrite (ConstructInputData_features_agree aFeatureAtomics cSamples
             data1 data2); [done | lia |].
  intros j f i Hj Hf Hi. apply (Hsame j); [lia | done | done].
Qed.

(** ** What an error tells *)

(** X12. The errors of [Initialize] are sound: with samples, each kind is
    returned only when its cause is in the input.  A label error is the
    error of the first target that does not pass; [SizeOverflow] means the
    targets passed and [cSamples * cVectorLength] does not fit [size_t];
    [GradientInitFailed] means the targets passed, the size fits and
    [InitializeGradients] returned [true]; [AllocationFailure] means the
    targets passed, the size fits and the allocator refused a request; a
    bin error means all of the former went well, there are features, and
    it is the error of the first sample that does not pass in the first
    feature whose column is not valid. *)
Theorem Initialize_error_sound
    this cFeatureAtomics aFeatureAtomics cSamples aBinnedData aTargetData
    aPredictorScores d h e this' h' :
  0 < cSamples ->
  Initialize this cFeatureAtomics aFeatureAtomics cSamples aBinnedData
    aTargetData aPredictorScores d h = Returns (Some e, this') h' ->
  let cElements := cSamples * GetVectorLength d in
  let failed :=
    fst (InitializeGradients d cSamples aTargetData aPredictorScores
           (replicate (Z.to_nat cElements) None)) in
  match e with
  | NegativeLabel | LabelOverflow | LabelOutOfRange =>
      IsClassification d = true /\
      exists k v,
        (k < Z.to_nat cSamples)%nat /\ aTargetData !! k = Some v /\
        label_error (to_size_t d) v = Some e /\
        forall j, (j < k)%nat ->
        exists w, aTargetData !! j = Some w /\ valid_label (to_size_t d) w
  | SizeOverflow =>
      targets_pass cSamples aTargetData d /\ SIZE_MAX < cElements
  | GradientInitFailed =>
      targets_pass cSamples aTargetData d /\ cElements <= SIZE_MAX /\
      failed = true
  | AllocationFailure =>
      targets_pass cSamples aTargetData d /\ cElements <= SIZE_MAX /\
      exists n c, malloc_succeeds n c = false
  | NegativeBinIndex | BinIndexOverflow | BinIndexOutOfRange =>
      targets_pass cSamples aTargetData d /\ cElements <= SIZE_MAX /\
      failed = false /\ cFeatureAtomics <> 0 /\
      exists j f i,
        (j < Z.to_nat cFeatureAtomics)%nat /\
        aFeatureAtomics !! j = Some f /\
        first_bad aBinnedData cSamples f i e /\
        forall j', (j' < j)%nat ->
        exists f', aFeatureAtomics !! j' = Some f' /\
                   column_valid aBinnedData cSamples f'
  end.
Proof.
  intros HcS Hrun cElements failed.
  apply Initialize_inv in Hrun as [_ Hexit].
  inversion Hexit as
    [ | e' ? ? Hval | e' h1 ? ? Hval Hcg
    | e' g h1 h2 h3 ? ? ? Hval Hcg Hcid Hfree | | ]; subst.
  - (* a target did not pass *)
    unfold validate_targets in Hval.
    destruct (IsClassification d) eqn:Hclass; [|done].
    apply Initialize_targets_post in Hval
      as (_ & k & v & Hk & Hv & He & Hbefore).
    assert (Hcause :
      exists k v,
        (k < Z.to_nat cSamples)%nat /\ aTargetData !! k = Some v /\
        label_error (to_size_t d) v = Some e /\
        forall j, (j < k)%nat ->
        exists w, aTargetData !! j = Some w /\ valid_label (to_size_t d) w).
    { exists k, v. split; [lia|]. do 2 (split; [done|]).
      intros j Hj. apply Hbefore. lia. }
    apply label_error_kind in He as [-> | [-> | ->]];
      (split; [done | exact Hcause]).
  - (* ConstructGradients returned nullptr *)
    apply validate_targets_None in Hval; [|done].
    pose proof (ConstructGradients_asserts _ _ _ _ _ _ _ Hcg) as (? & ? & ?).
    rewrite ConstructGradients_spec in Hcg by done. simpl in Hcg.
    fold cElements in Hcg. fold failed in Hcg.
    case_decide.
    { injection Hcg as <- _. done. }
    destruct (malloc_succeeds _ _) eqn:Hm.
    + destruct failed eqn:Hf; [|done]. injection Hcg as <- _.
      split; [done|]. split; [lia | done].
    + injection Hcg as <- _. split; [done|]. split; [lia | eauto].
  - (* ConstructInputData returned nullptr *)
    apply validate_targets_None in Hval; [|done].
    pose proof (ConstructGradients_asserts _ _ _ _ _ _ _ Hcg) as (? & ? & ?).
    rewrite ConstructGradients_spec in Hcg by done. simpl in Hcg.
    fold cElements in Hcg. fold failed in Hcg.
    case_decide; [done|].
    destruct (malloc_succeeds _ _); [|done].
    destruct failed eqn:Hf; [done|].
    apply ConstructInputData_trace in Hcid
      as [(-> & _ & Hrefused)|(j & Hj & _ & Hbefore & Hwhy)].
    { split; [done|]. split; [lia | eauto]. }
    destruct Hwhy as [[-> Hrefused]|(f & i & Hf' & Hbad)].
    { split; [done|]. split; [lia | eauto]. }
    assert (Hcause : targets_pass cSamples aTargetData d /\
      cElements <= SIZE_MAX /\ false = false /\ cFeatureAtomics <> 0 /\
      exists j f i,
        (j < Z.to_nat cFeatureAtomics)%nat /\
        aFeatureAtomics !! j = Some f /\
        first_bad aBinnedData cSamples f i e /\
        forall j', (j' < j)%nat ->
        exists f', aFeatureAtomics !! j' = Some f' /\
                   column_valid aBinnedData cSamples f').
    { split; [done|]. split; [lia|]. do 2 (split; [done|]). by exists j, f, i. }
    destruct Hbad as (_ & (v & _ & He) & _).
    by apply bin_error_kind in He as [-> | [-> | ->]].
Qed.

End Correctness.

(** * Concrete runs *)

(** Trying each of the first naturals below a bound of at most three. *)
Ltac below i H :=
  destruct i as [|[|[|i]]]; simpl in H; try lia.

(** Closed comparisons and equations of the reference build. *)
Ltac evaluate :=
  vm_compute; first [reflexivity | discriminate | repeat split; discriminate].

(** The spec's failure scenario: the third sample of the first feature is
    3, the bin count 2. *)
Example Initialize_bad_bin :
  Initialize (E := reference_build grant_all false) zeroed 2 two_features
    3 [0; 1; 3; 2; 0; 2] [0; 1; 0] [] 2 empty_heap =
  Returns (Some BinIndexOutOfRange, zeroed) {| live := ∅; calls := 3 |}.
Proof. vm_compute. reflexivity. Qed.

(** The allocator refusing the second inner block. *)
Example Initialize_refused_inner_block :
  Initialize (E := reference_build (refuse_call 3) false) zeroed 2 two_features
    3 [0; 1; 1; 2; 0; 2] [0; 1; 0] [] 2 empty_heap =
  Returns (Some AllocationFailure, zeroed) {| live := ∅; calls := 4 |}.
Proof. vm_compute. reflexivity. Qed.

(** The allocator refusing the gradient buffer, and the outer block. *)
Example Initialize_refused_gradients :
  Initialize (E := reference_build (refuse_call 0) false) zeroed 2 two_features
    3 [0; 1; 1; 2; 0; 2] [0; 1; 0] [] 2 empty_heap =
  Returns (Some AllocationFailure, zeroed) {| live := ∅; calls := 1 |}.
Proof. vm_compute. reflexivity. Qed.

Example Initialize_refused_outer_block :
  Initialize (E := reference_build (refuse_call 1) false) zeroed 2 two_features
    3 [0; 1; 1; 2; 0; 2] [0; 1; 0] [] 2 empty_heap =
  Returns (Some AllocationFailure, zeroed) {| live := ∅; calls := 2 |}.
Proof. vm_compute. reflexivity. Qed.

(** A regression call fails on a bad bin index like any other. *)
Example Initialize_regression_bad_bin :
  Initialize (E := reference_build grant_all false) zeroed 2 two_features
    3 [0; 1; 1; 2; -4; 2] [-1; -2; -3] [] (-1) empty_heap =
  Returns (Some NegativeBinIndex, zeroed) {| live := ∅; calls := 4 |}.
Proof. vm_compute. reflexivity. Qed.

(** After the spec's scenario, [Destruct] frees the four blocks. *)
Example Initialize_then_Destruct :
  (let* r := Initialize (E := reference_build grant_all false) zeroed 2
               two_features 3 [0; 1; 1; 2; 0; 2] [0; 1; 0] [] 2 in
   Destruct (snd r)) empty_heap =
  Returns tt {| live := ∅; calls := 4 |}.
Proof. vm_compute. reflexivity. Qed.

Lemma Initialize_failure_atomic_witness :
  let E := reference_build grant_all false in
  0 < 3 /\
  Initialize zeroed 2 two_features 3 [0; 1; 3; 2; 0; 2] [0; 1; 0] [] 2
    empty_heap =
    Returns (Some BinIndexOutOfRange, zeroed) {| live := ∅; calls := 3 |} /\
  (zeroed = zeroed /\
   m_aGradients zeroed = nullptr /\ m_aaInputData zeroed = nullptr /\
   m_cSamples zeroed = 0 /\
   m_cFeatureAtomics zeroed = m_cFeatureAtomics zeroed /\
   live {| live := ∅; calls := 3 |} = live empty_heap).
Proof.
  intros E.
  assert (H1 : 0 < 3) by lia.
  assert (H2 : Initialize zeroed 2 two_features 3 [0; 1; 3; 2; 0; 2] [0; 1; 0]
                 [] 2 empty_heap =
               Returns (Some BinIndexOutOfRange, zeroed)
                 {| live := ∅; calls := 3 |})
    by (vm_compute; reflexivity).
  split; [exact H1|]. split; [exact H2|].
  exact (Initialize_failure_atomic _ _ _ _ _ _ _ _ _ _ _ _ H1 H2).
Defined.

Lemma two_features_in_bounds (bins : list Z) :
  let E := reference_build grant_all false in
  length bins = 6%nat -> columns_in_bounds 2 two_features 3 bins.
Proof.
  intros E Hlen j Hj. below j Hj; eexists; (split; [reflexivity|]);
    intros i Hi; apply lookup_lt_is_Some_2; rewrite Hlen;
    below i Hi; vm_compute; lia.
Qed.

(** In the reference build the values 0, 1, 2 are bin indices of a feature
    with more bins than that. *)
Lemma reference_valid_bin (f : FeatureAtomic) (v : Z) :
  let E := reference_build grant_all false in
  0 <= v <= 2 -> v < m_cBins f -> valid_bin f v.
Proof. intros E Hv Hf. unfold valid_bin. simpl. lia. Qed.

Lemma ConstructInputData_rolls_back_witness :
  let E := reference_build grant_all false in
  ConstructInputData 2 two_features 3 [0; 1; 3; 2; 0; 2] empty_heap =
    Returns (inl BinIndexOutOfRange) {| live := ∅; calls := 2 |} /\
  live {| live := ∅; calls := 2 |} = live empty_heap /\
  gave_up two_features (Z.to_nat 2) 3 [0; 1; 3; 2; 0; 2] BinIndexOutOfRange /\
  exists r h',
    ConstructInputData 2 two_features 3 [0; 1; 3; 2; 0; 2] empty_heap =
      Returns r h'.
Proof.
  intros E.
  destruct (ConstructInputData_rolls_back 2 two_features 3 [0; 1; 3; 2; 0; 2]
              empty_heap) as [Hfail Hreturns].
  assert (Hrun : ConstructInputData 2 two_features 3 [0; 1; 3; 2; 0; 2]
                   empty_heap =
                 Returns (inl BinIndexOutOfRange) {| live := ∅; calls := 2 |})
    by (vm_compute; reflexivity).
  split; [exact Hrun|].
  destruct (Hfail _ _ Hrun) as [Hlive Hwhy].
  split; [exact Hlive|]. split; [exact Hwhy|].
  apply Hreturns; [lia | lia |].
  apply (two_features_in_bounds [0; 1; 3; 2; 0; 2]). reflexivity.
Defined.



Lemma Initialize_validates_targets_witness :
  let E := reference_build grant_all false in
  Initialize zeroed 2 two_features 3 [0; 1; 1; 2; 0; 2] [0; 2; 0] [] 2
    empty_heap = Returns (Some LabelOutOfRange, zeroed) empty_heap.
Proof.
  intros E.
  assert (Hinit : initial zeroed) by done.
  assert (Hclass : IsClassification 2 = true) by reflexivity.
  assert (Hbefore : forall j w, (j < 1)%nat -> [0; 2; 0] !! j = Some w ->
            0 <= w /\ w <= STORAGE_MAX /\ w <= SIZE_MAX /\ w < to_size_t 2).
  { intros j w Hj Hw. below j Hj. injection Hw as <-. evaluate. }
  apply (proj2 (proj2 (proj1 (Initialize_validates_targets zeroed 2
            two_features 3 [0; 1; 1; 2; 0; 2] [0; 2; 0] [] 2 empty_heap
            Hinit ltac:(lia) ltac:(lia) Hclass)
          1%nat 2 ltac:(lia) eq_refl Hbefore))); evaluate.
Defined.

Lemma Initialize_commits_columns_witness :
  let E := reference_build grant_all false in
  exists aGradients aaInputData p0 p1 h',
    Initialize zeroed 2 two_features 3 [0; 1; 1; 2; 0; 2] [0; 1; 0] [] 2
      empty_heap =
    Returns (None,
             {| m_aGradients := Some aGradients;
                m_aaInputData := Some aaInputData;
                m_cSamples := 3; m_cFeatureAtomics := 2 |}) h' /\
    live h' !! aGradients =
      Some (GradientBlock
              (snd (InitializeGradients 2 3 [0; 1; 0] [] (replicate 3 None)))) /\
    live h' !! aaInputData = Some (PointerBlock [Some p0; Some p1]) /\
    live h' !! p0 = Some (StorageBlock [Some 0; Some 1; Some 1]) /\
    live h' !! p1 = Some (StorageBlock [Some 2; Some 0; Some 2]).
Proof.
  intros E.
  apply (proj2 Initialize_commits_columns zeroed [] empty_heap).
  - done.
  - reflexivity.
  - reflexivity.
  - evaluate.
  - evaluate.
  - reflexivity.
  - reflexivity.
Defined.

(** Three samples and [PTRDIFF_MAX] classes: the product does not fit
    [size_t]. With a negative target the call stops at the target, before
    [ConstructGradients] is reached, and the error is not [SizeOverflow]. *)
Lemma Initialize_overflow_after_bad_target :
  let E := reference_build grant_all false in
  0 < 3 /\
  IsMultiplyError 3 (GetVectorLength PTRDIFF_MAX) = true /\
  Initialize zeroed 0 [] 3 [] [0; -1; 2] [] PTRDIFF_MAX empty_heap =
    Returns (Some NegativeLabel, zeroed) empty_heap /\
  ~ exists this' h',
      Initialize zeroed 0 [] 3 [] [0; -1; 2] [] PTRDIFF_MAX empty_heap =
        Returns (Some SizeOverflow, this') h'.
Proof.
  intros E.
  assert (Hrun : Initialize zeroed 0 [] 3 [] [0; -1; 2] [] PTRDIFF_MAX
                   empty_heap =
                 Returns (Some NegativeLabel, zeroed) empty_heap)
    by (vm_compute; reflexivity).
  split; [lia|]. split; [vm_compute; reflexivity|]. split; [exact Hrun|].
  intros (this' & h' & Hother). rewrite Hrun in Hother. discriminate.
Qed.

(** In the reference build three targets below the class count pass. *)
Lemma reference_targets_pass (targets : list Z) (d : Z) :
  let E := reference_build grant_all false in
  length targets = 3%nat ->
  Forall (fun v => 0 <= v < d) targets -> d <= PTRDIFF_MAX ->
  forall init_fails,
    @targets_pass (reference_build grant_all init_fails) 3 targets d.
Proof.
  intros E Hlen Hall Hd init_fails _ i Hi.
  destruct (lookup_lt_is_Some_2 targets i) as [v Hv]; [rewrite Hlen; lia|].
  exists v. split; [done|].
  apply (proj1 (Forall_lookup _ _) Hall) in Hv.
  unfold valid_label, PTRDIFF_MAX in *. simpl.
  unfold to_size_t. simpl. rewrite Z.mod_small by lia. lia.
Qed.

(** Three samples and [PTRDIFF_MAX] classes.  With the targets 0, 1, 2
    the error is [SizeOverflow]; with the targets 0, -1, 2 the call fails
    all the same, on the heap it was given. *)
Lemma Initialize_size_overflow_witness :
  let E := reference_build grant_all false in
  ConstructGradients 3 [0; -1; 2] [] PTRDIFF_MAX empty_heap =
    Returns (inl SizeOverflow) empty_heap /\
  Initialize zeroed 0 [] 3 [] [0; 1; 2] [] PTRDIFF_MAX empty_heap =
    Returns (Some SizeOverflow, zeroed) empty_heap /\
  exists e,
    Initialize zeroed 0 [] 3 [] [0; -1; 2] [] PTRDIFF_MAX empty_heap =
      Returns (Some e, zeroed) empty_heap.
Proof.
  intros E.
  assert (Hinit : initial zeroed) by done.
  assert (HcS : 0 < 3) by lia.
  assert (Hd : PTRDIFF_MAX <> 0) by evaluate.
  assert (Hvl : 1 <= GetVectorLength PTRDIFF_MAX) by evaluate.
  assert (Hover : SIZE_MAX < 3 * GetVectorLength PTRDIFF_MAX) by evaluate.
  split; [|split].
  - exact (proj1 (Initialize_size_overflow (E := E) zeroed 0 [] 3 []
                    [0; -1; 2] [] PTRDIFF_MAX empty_heap
                    Hinit HcS Hd Hvl Hover)).
  - apply (proj2 (proj2 (proj2
             (Initialize_size_overflow (E := E) zeroed 0 [] 3 []
                [0; 1; 2] [] PTRDIFF_MAX empty_heap
                Hinit HcS Hd Hvl Hover)))).
    apply (reference_targets_pass [0; 1; 2] PTRDIFF_MAX); [done | | done].
    repeat constructor; evaluate.
  - apply (proj1 (proj2 (proj2
             (Initialize_size_overflow (E := E) zeroed 0 [] 3 []
                [0; -1; 2] [] PTRDIFF_MAX empty_heap
                Hinit HcS Hd Hvl Hover)))).
    intros _ i Hi. below i Hi; by eexists.
Defined.

Lemma Initialize_empty_frame_witness :
  let E := reference_build grant_all false in
  exists this',
    Initialize zeroed 2 two_features 0 [] [] [] 0 empty_heap =
      Returns (None, this') empty_heap /\
    returns_true None = false /\
    m_aGradients this' = nullptr /\ m_aaInputData this' = nullptr /\
    m_cSamples this' = 0 /\ m_cFeatureAtomics this' = 2 /\
    Destruct this' empty_heap = Returns tt empty_heap.
Proof.
  intros E.
  apply (Initialize_empty_frame zeroed 2 two_features [] [] [] 0 empty_heap).
  done.
Defined.

(** No samples, a negative target, a label above the class count, a bin
    index above every bin count and a negative one: all ignored, and the
    feature count 2 is in the object.  With two samples the same arrays are
    turned down at the first target. *)
Lemma Initialize_zero_samples_unvalidated_witness :
  let E := reference_build grant_all false in
  (exists this',
     m_cFeatureAtomics this' = 2 /\
     m_aGradients this' = nullptr /\ m_aaInputData this' = nullptr /\
     m_cSamples this' = 0 /\
     Initialize zeroed 2 two_features 0 [7; -5] [-1; 9] [] 2 empty_heap =
       Returns (None, this') empty_heap /\
     Initialize zeroed 2 [] 0 [] [] [] 0 empty_heap =
       Returns (None, this') empty_heap) /\
  Initialize zeroed 2 two_features 2 [7; -5] [-1; 9] [] 2 empty_heap =
    Returns (Some NegativeLabel, zeroed) empty_heap.
Proof.
  intros E. split; [|vm_compute; reflexivity].
  destruct (Initialize_zero_samples_unvalidated (E := E) zeroed 2 empty_heap)
    as (this' & HcF & Hg & Hi & Hs & Hrun); [done|].
  exists this'.
  split; [exact HcF|]. split; [exact Hg|]. split; [exact Hi|].
  split; [exact Hs|]. split; apply Hrun.
Defined.

(** Regression (the descriptor is negative): targets that no class count
    would admit change nothing. *)
Lemma Initialize_regression_skips_validation_witness :
  let E := reference_build grant_all false in
  Initialize zeroed 2 two_features 3 [0; 1; 1; 2; 0; 2] [-1; -2; 2 ^ 70] []
    (-1) empty_heap =
  Initialize zeroed 2 two_features 3 [0; 1; 1; 2; 0; 2] [0; 0; 0] []
    (-1) empty_heap.
Proof.
  intros E.
  apply (proj2 (Initialize_regression_skips_validation (E := E) zeroed 2
                  two_features
                  3 [0; 1; 1; 2; 0; 2] [-1; -2; 2 ^ 70] [] (-1) empty_heap
                  ltac:(lia) ltac:(reflexivity)) [0; 0; 0]).
  intros cells. reflexivity.
Defined.

Lemma Initialize_contains_gradient_failure_witness :
  let E := reference_build grant_all true in
  ConstructGradients 3 [0; 1; 0] [] 2 empty_heap =
    Returns (inl GradientInitFailed) {| live := ∅; calls := 1 |} /\
  Initialize zeroed 2 two_features 3 [0; 1; 1; 2; 0; 2] [0; 1; 0] [] 2
    empty_heap =
    Returns (Some GradientInitFailed, zeroed) {| live := ∅; calls := 1 |}.
Proof.
  intros E.
  apply (Initialize_contains_gradient_failure zeroed 2 two_features 3
           [0; 1; 1; 2; 0; 2] [0; 1; 0] [] 2 empty_heap).
  - done.
  - lia.
  - lia.
  - evaluate.
  - apply (reference_targets_pass [0; 1; 0] 2); [done | | evaluate].
    repeat constructor; evaluate.
  - evaluate.
  - reflexivity.
  - reflexivity.
Defined.

(** ** Runs for the properties beyond the claims *)

(** The spec's scenario on a heap that already holds a block. *)
Lemma scenario_succeeds :
  let E := reference_build grant_all false in
  exists this' h',
    Initialize zeroed 2 two_features 3 [0; 1; 1; 2; 0; 2] [0; 1; 0] [] 2
      {| live := {[ 1%positive := StorageBlock [Some 7] ]}; calls := 5 |} =
    Returns (None, this') h'.
Proof. intros E. eexists _, _. vm_compute. reflexivity. Qed.

Lemma Destruct_after_Initialize_witness :
  let E := reference_build grant_all false in
  exists this' h' h'',
    Initialize zeroed 2 two_features 3 [0; 1; 1; 2; 0; 2] [0; 1; 0] [] 2
      {| live := {[ 1%positive := StorageBlock [Some 7] ]}; calls := 5 |} =
      Returns (None, this') h' /\
    Destruct this' h' = Returns tt h'' /\
    live h'' = {[ 1%positive := StorageBlock [Some 7] ]} /\
    calls h'' = calls h'.
Proof.
  intros E. destruct scenario_succeeds as (this' & h' & Hrun).
  destruct (Destruct_after_Initialize _ _ _ _ _ _ _ _ _ _ _ Hrun)
    as (h'' & Hd & Hl & Hc).
  exists this', h', h''. repeat split; assumption.
Defined.

Lemma Destruct_twice_undefined_witness :
  let E := reference_build grant_all false in
  exists this' h' h'',
    Initialize zeroed 2 two_features 3 [0; 1; 1; 2; 0; 2] [0; 1; 0] [] 2
      {| live := {[ 1%positive := StorageBlock [Some 7] ]}; calls := 5 |} =
      Returns (None, this') h' /\
    Destruct this' h' = Returns tt h'' /\
    Destruct this' h'' = Undefined InvalidPointer.
Proof.
  intros E. destruct scenario_succeeds as (this' & h' & Hrun).
  assert (Hsamples : 0 < 3) by lia.
  destruct (Destruct_twice_undefined _ _ _ _ _ _ _ _ _ _ _ Hsamples Hrun)
    as (h'' & Hd & Hu).
  exists this', h', h''. repeat split; assumption.
Defined.

Lemma Initialize_object_invariant_witness :
  let E := reference_build grant_all false in
  exists this' h',
    Initialize zeroed 2 two_features 3 [0; 1; 1; 2; 0; 2] [0; 1; 0] [] 2
      {| live := {[ 1%positive := StorageBlock [Some 7] ]}; calls := 5 |} =
      Returns (None, this') h' /\
    (m_aGradients this' <> nullptr <-> m_cSamples this' <> 0) /\
    (m_aaInputData this' <> nullptr <->
     m_cSamples this' <> 0 /\ m_cFeatureAtomics this' <> 0) /\
    (@None ErrorKind = None ->
     m_cSamples this' = 3 /\ m_cFeatureAtomics this' = 2).
Proof.
  intros E. destruct scenario_succeeds as (this' & h' & Hrun).
  exists this', h'. split; [exact Hrun|].
  exact (Initialize_object_invariant _ _ _ _ _ _ _ _ _ _ _ _ Hrun).
Defined.

Lemma Initialize_preserves_blocks_witness :
  let E := reference_build grant_all false in
  exists this' h',
    Initialize zeroed 2 two_features 3 [0; 1; 1; 2; 0; 2] [0; 1; 0] [] 2
      {| live := {[ 1%positive := StorageBlock [Some 7] ]}; calls := 5 |} =
      Returns (None, this') h' /\
    live h' !! 1%positive = Some (StorageBlock [Some 7]).
Proof.
  intros E. destruct scenario_succeeds as (this' & h' & Hrun).
  exists this', h'. split; [exact Hrun|].
  apply (Initialize_preserves_blocks _ _ _ _ _ _ _ _ _ _ _ _ Hrun).
  reflexivity.
Defined.

Lemma Initialize_buffers_distinct_witness :
  let E := reference_build grant_all false in
  exists this' h' aGradients aaInputData ps,
    Initialize zeroed 2 two_features 3 [0; 1; 1; 2; 0; 2] [0; 1; 0] [] 2
      {| live := {[ 1%positive := StorageBlock [Some 7] ]}; calls := 5 |} =
      Returns (None, this') h' /\
    m_aGradients this' = Some aGradients /\
    m_aaInputData this' = Some aaInputData /\
    length ps = Z.to_nat 2 /\
    live h' !! aaInputData = Some (PointerBlock (Some <$> ps)) /\
    NoDup (aGradients :: aaInputData :: ps).
Proof.
  intros E. destruct scenario_succeeds as (this' & h' & Hrun).
  assert (Hsamples : 0 < 3) by lia.
  assert (Hfeatures : 2 <> 0) by lia.
  destruct (Initialize_buffers_distinct _ _ _ _ _ _ _ _ _ _ _
              Hsamples Hfeatures Hrun)
    as (g & outer & ps & Hg & Ho & Hlen & Hslots & Hnd & _).
  exists this', h', g, outer, ps. repeat split; assumption.
Defined.

Lemma reference_columns_valid :
  let E := reference_build grant_all false in
  columns_valid (Z.to_nat 2) two_features 3 [0; 1; 1; 2; 0; 2].
Proof.
  intros E j Hj. below j Hj; eexists; (split; [reflexivity|]);
    intros i Hi; below i Hi; eexists; (split; [reflexivity|]);
    apply reference_valid_bin; simpl; lia.
Qed.

Lemma Initialize_accepts_iff_witness :
  let E := reference_build grant_all false in
  exists this' h',
    Initialize zeroed 2 two_features 3 [0; 1; 1; 2; 0; 2] [0; 1; 0] [] 2
      empty_heap = Returns (None, this') h'.
Proof.
  intros E.
  apply (proj2 (Initialize_accepts_iff (E := E) zeroed 2 two_features 3
                  [0; 1; 1; 2; 0; 2] [0; 1; 0] [] 2 empty_heap
                  ltac:(done) ltac:(lia) ltac:(lia) ltac:(lia)
                  ltac:(evaluate) ltac:(reflexivity))).
  split; [|split; [|split]].
  - apply (reference_targets_pass [0; 1; 0] 2); [done | | evaluate].
    repeat constructor; evaluate.
  - evaluate.
  - reflexivity.
  - exact reference_columns_valid.
Defined.

(** The second feature's column is 2, 3, -1 and its bin count 3: the
    sample holding 3 is reported, not the negative one after it. *)
Lemma ConstructInputData_fails_fast_witness :
  let E := reference_build grant_all false in
  exists h',
    ConstructInputData 2 two_features 3 [0; 1; 1; 2; 3; -1] empty_heap =
      Returns (inl BinIndexOutOfRange) h' /\
    live h' = live empty_heap /\ calls h' = (calls empty_heap + (1 + 2))%nat.
Proof.
  intros E.
  apply (ConstructInputData_fails_fast (E := E) 2 two_features 3
           [0; 1; 1; 2; 3; -1] empty_heap 1%nat
           {| m_cBins := 3; m_iFeatureAtomicData := 1 |} 1%nat
           BinIndexOutOfRange ltac:(lia) ltac:(lia) ltac:(reflexivity)
           (two_features_in_bounds [0; 1; 1; 2; 3; -1] eq_refl)
           ltac:(simpl; lia) eq_refl).
  - intros j' Hj'. below j' Hj'. eexists. split; [reflexivity|].
    intros i Hi. below i Hi; eexists; (split; [reflexivity|]);
      apply reference_valid_bin; simpl; lia.
  - split; [simpl; lia|]. split.
    + exists 3. split; reflexivity.
    + intros i' Hi'. below i' Hi'. exists 2. split; [reflexivity|].
      apply reference_valid_bin; simpl; lia.
Defined.

Lemma Initialize_allocation_count_witness :
  let E := reference_build grant_all false in
  exists this' h',
    Initialize zeroed 2 two_features 3 [0; 1; 1; 2; 0; 2] [0; 1; 0] [] 2
      {| live := {[ 1%positive := StorageBlock [Some 7] ]}; calls := 5 |} =
      Returns (None, this') h' /\
    calls h' = (5 + (Z.to_nat 2 + 2))%nat.
Proof.
  intros E. destruct scenario_succeeds as (this' & h' & Hrun).
  exists this', h'. split; [exact Hrun|].
  exact (Initialize_allocation_count _ _ _ _ _ _ _ _ _ _ _ Hrun).
Defined.

Lemma Initialize_stops_at_refusal_witness :
  let E := reference_build (refuse_call 3) false in
  Initialize zeroed 2 two_features 3 [0; 1; 1; 2; 0; 2] [0; 1; 0] [] 2
    empty_heap =
    Returns (Some AllocationFailure, zeroed) {| live := ∅; calls := 4 |} /\
  (calls empty_heap < 4)%nat /\
  exists c, malloc_succeeds (Init.Nat.pred 4) c = false.
Proof.
  intros E.
  assert (Hrun : Initialize zeroed 2 two_features 3 [0; 1; 1; 2; 0; 2]
                   [0; 1; 0] [] 2 empty_heap =
                 Returns (Some AllocationFailure, zeroed)
                   {| live := ∅; calls := 4 |})
    by (vm_compute; reflexivity).
  split; [exact Hrun|].
  exact (Initialize_stops_at_refusal _ _ _ _ _ _ _ _ _ _ _ Hrun).
Defined.

Lemma Initialize_featureless_witness :
  let E := reference_build grant_all false in
  exists this' h',
    Initialize zeroed 0 two_features 3 [9; -9] [0; 1; 0] [] 2 empty_heap =
      Returns (None, this') h' /\
    m_aaInputData this' = nullptr /\
    exists aGradients b,
      m_aGradients this' = Some aGradients /\
      live empty_heap !! aGradients = None /\
      live h' = <[aGradients := b]> (live empty_heap).
Proof.
  intros E.
  assert (Hrun : exists this' h',
    Initialize zeroed 0 two_features 3 [9; -9] [0; 1; 0] [] 2 empty_heap =
      Returns (None, this') h')
    by (eexists _, _; vm_compute; reflexivity).
  destruct Hrun as (this' & h' & Hrun).
  exists this', h'. split; [exact Hrun|].
  assert (Hsamples : 0 < 3) by lia.
  exact (proj2 (Initialize_featureless zeroed two_features 3 [9; -9]
                  [0; 1; 0] [] 2 empty_heap) this' h' Hsamples Hrun).
Defined.

(** The second array goes on with cells no column reaches. *)
Lemma ConstructInputData_reads_only_columns_witness :
  let E := reference_build grant_all false in
  ConstructInputData 2 two_features 3 [0; 1; 1; 2; 0; 2] empty_heap =
  ConstructInputData 2 two_features 3 [0; 1; 1; 2; 0; 2; 99; -7] empty_heap.
Proof.
  intros E.
  apply (ConstructInputData_reads_only_columns (E := E)).
  intros j f i Hj Hf Hi.
  below j Hj; injection Hf as <-; below i Hi; reflexivity.
Defined.

Lemma Initialize_error_sound_witness :
  let E := reference_build grant_all false in
  Initialize zeroed 2 two_features 3 [0; 1; 3; 2; 0; 2] [0; 1; 0] [] 2
    empty_heap =
    Returns (Some BinIndexOutOfRange, zeroed) {| live := ∅; calls := 3 |} /\
  exists j f i,
    (j < Z.to_nat 2)%nat /\ two_features !! j = Some f /\
    first_bad [0; 1; 3; 2; 0; 2] 3 f i BinIndexOutOfRange.
Proof.
  intros E.
  assert (Hrun : Initialize zeroed 2 two_features 3 [0; 1; 3; 2; 0; 2]
                   [0; 1; 0] [] 2 empty_heap =
                 Returns (Some BinIndexOutOfRange, zeroed)
                   {| live := ∅; calls := 3 |})
    by (vm_compute; reflexivity).
  split; [exact Hrun|].
  assert (Hsamples : 0 < 3) by lia.
  destruct (Initialize_error_sound _ _ _ _ _ _ _ _ _ _ _ _ Hsamples Hrun)
    as (_ & _ & _ & _ & j & f & i & Hj & Hf & Hbad & _).
  exists j, f, i. split; [exact Hj|]. split; [exact Hf | exact Hbad].
Defined.
